(** * Oncure front end: the API client [frontend/src/lib/api.js]

    A shallow embedding of the browser-side client and of its reconnecting
    WebSocket helper, together with the properties its specification states.

    Conventions of the model.
    - JavaScript values are the inductive [Value]. Numbers are the integers
      (lengths, ids, page numbers and limits are all the client computes
      with); their decimal rendering [toStr] is the one of JavaScript below
      10^21 in magnitude. Resource identifiers are strings and such
      integers ([resource_id]); the statements that depend on how an id is
      rendered or converted are about them.
    - Strings are byte strings (UTF-8).
    - A settled promise is an [Outcome]: fulfilled with a value or rejected
      with an error object.
    - An [async] endpoint method is a term of [Async]: it returns, throws, or
      awaits one call of the core request function and continues with the
      outcome. [run] interprets it against a transport ([fetch]).
    - Console output is not part of the model: it is invisible to callers.
      The conversions to a string that a log line of a [catch] performs on
      an argument are modelled where the [catch] would otherwise return,
      because they can throw. *)

From Stdlib Require Import ZArith String Ascii List Bool Lia.
From stdpp Require Import base strings gmap pretty.
Import ListNotations.

Local Open Scope string_scope.
Local Open Scope Z_scope.
Local Set Warnings "-register-all".

(** ** JavaScript values *)

Inductive Value : Type :=
| VUndefined
| VNull
| VBool (b : bool)
| VNum (z : Z)
| VStr (s : string)
| VArr (items : list Value)
| VObj (fields : list (string * Value))
| VFunction (name : string) (arity : Z)   (* a built-in function object *)
| VResponse (url : string)                (* a raw fetch [Response] *)
| VFile (name : string).                  (* a [File] picked by the user *)

(** Error objects: [new Error(message)], [TypeError], [SyntaxError], ... *)
Record Error : Type := mkError { name : string; message : string }.

Definition new_Error (msg : string) : Error := mkError "Error" msg.
Definition new_TypeError (msg : string) : Error := mkError "TypeError" msg.

Inductive Outcome : Type :=
| Return (v : Value)
| Throw (e : Error).

(** [s.includes(needle)] *)
Fixpoint includes (s needle : string) : bool :=
  String.prefix needle s
  || match s with
     | EmptyString => false
     | String _ rest => includes rest needle
     end.

(** ToBoolean *)
Definition truthy (v : Value) : bool :=
  match v with
  | VUndefined | VNull => false
  | VBool b => b
  | VNum z => negb (z =? 0)
  | VStr s => negb (String.eqb s "")
  | _ => true
  end.

(** The string of a value, as template literals and [new Error(x)] make it.
    It is the rendering of JavaScript for every value that converts (see
    [converts] below) except the numbers from 10^21 on, which JavaScript
    writes with an exponent. *)
Fixpoint toStr (v : Value) : string :=
  match v with
  | VUndefined => "undefined"
  | VNull => "null"
  | VBool true => "true"
  | VBool false => "false"
  | VNum z => pretty z
  | VStr s => s
  | VArr items =>
      String.concat ","
        (map (fun x => match x with
                       | VUndefined | VNull => ""
                       | _ => toStr x
                       end) items)
  | VObj _ => "[object Object]"
  | VFunction f _ => "function " ++ f ++ "() { [native code] }"
  | VResponse _ => "[object Response]"
  | VFile _ => "[object File]"
  end.

(** [Array.isArray(v)] *)
Definition isArray (v : Value) : bool :=
  match v with VArr _ => true | _ => false end.

(** [n === v] for a number [n], and [s === v] for a string [s]: strict
    equality never coerces, so a value of another type is different. *)
Definition num_strict_eq (n : Z) (v : Value) : bool :=
  match v with VNum m => n =? m | _ => false end.

Definition str_strict_eq (s : string) (v : Value) : bool :=
  match v with VStr t => String.eqb s t | _ => false end.

(** A parameter default, [(x = d) => ...]: only [undefined] triggers it. *)
Definition default (d v : Value) : Value :=
  match v with VUndefined => d | _ => v end.

(** Own-property lookup in an object literal. *)
Fixpoint assoc (key : string) (fields : list (string * Value)) : option Value :=
  match fields with
  | [] => None
  | (k, v) :: rest => if String.eqb k key then Some v else assoc key rest
  end.

(** [{ ...obj, key: v }]: the key keeps its place when it is already there. *)
Fixpoint set_field (key : string) (v : Value) (fields : list (string * Value))
  : list (string * Value) :=
  match fields with
  | [] => [(key, v)]
  | (k, w) :: rest =>
      if String.eqb k key then (k, v) :: rest else (k, w) :: set_field key v rest
  end.

(** [v.key] for the property names the client reads by name ([error], [url],
    [communities], [length], [id]): none of them lives on a built-in
    prototype, so own properties and the built-in [length] decide. Reading a
    property of [null] or [undefined] throws. *)
Definition member (v : Value) (key : string) : Outcome :=
  match v with
  | VUndefined =>
      Throw (new_TypeError
               ("Cannot read properties of undefined (reading '" ++ key ++ "')"))
  | VNull =>
      Throw (new_TypeError
               ("Cannot read properties of null (reading '" ++ key ++ "')"))
  | VObj fields =>
      Return (match assoc key fields with Some x => x | None => VUndefined end)
  | VArr items =>
      Return (if String.eqb key "length"
              then VNum (Z.of_nat (List.length items)) else VUndefined)
  | VStr s =>
      Return (if String.eqb key "length"
              then VNum (Z.of_nat (String.length s)) else VUndefined)
  | VFunction _ arity =>
      Return (if String.eqb key "length" then VNum arity else VUndefined)
  | VResponse url =>
      Return (if String.eqb key "url" then VStr url else VUndefined)
  | _ => Return VUndefined
  end.

(** The same read where it cannot throw (the receiver is known not to be
    [null] or [undefined]). *)
Definition get (v : Value) (key : string) : Value :=
  match member v key with Return x => x | Throw _ => VUndefined end.

(** ** Conversions that can fail

    Converting an object to a string calls its [toString], then its
    [valueOf]. A plain object inherits both from [Object.prototype] and
    renders as ["[object Object]"]; an object with an own [toString] that is
    not a function, and no own [valueOf] that is one, cannot be converted:
    the template literal, [parseInt] or the property access that needed the
    string throws a [TypeError]. (An own [toString] or [valueOf] that is a
    function would be called; such objects are taken to convert, with the
    rendering of a plain object.) An array converts when its elements do. *)

Definition callable (v : Value) : bool :=
  match v with VFunction _ _ => true | _ => false end.

Fixpoint converts (v : Value) : bool :=
  match v with
  | VObj fields =>
      match assoc "toString" fields with
      | None => true
      | Some own =>
          callable own
          || match assoc "valueOf" fields with
             | Some own' => callable own'
             | None => false
             end
      end
  | VArr items =>
      forallb (fun x => match x with
                        | VUndefined | VNull => true
                        | _ => converts x
                        end) items
  | _ => true
  end.

(** ToString as an operation: the string of [toStr], or the [TypeError]. *)
Definition ToString (v : Value) : Outcome :=
  if converts v then Return (VStr (toStr v))
  else Throw (new_TypeError "Cannot convert object to primitive value").

(** Resource identifiers are strings or integers. On them every conversion
    succeeds and [toStr] is the rendering of JavaScript (numbers from 10^21
    on are written with an exponent there, and are left out). *)
Definition resource_id (v : Value) : bool :=
  match v with
  | VStr _ => true
  | VNum z => Z.abs z <? 10 ^ 21
  | _ => false
  end.

(** ** [parseInt]

    [parseInt(x)] is [parseInt] of the string [String(x)]: leading white
    space is skipped, then an optional sign, then an optional [0x] (radix
    16), then the longest run of digits; no digit at all gives [NaN], here
    [None]. *)

Definition is_ascii_white (a : ascii) : bool :=
  let n := nat_of_ascii a in
  ((9 <=? n) && (n <=? 13) || (n =? 32))%nat.

(** Two- and three-byte UTF-8 encodings of the other WhiteSpace and
    LineTerminator code points: U+00A0; U+1680, U+2000..U+200A, U+2028,
    U+2029, U+202F, U+205F, U+3000, U+FEFF. *)
Definition is_white2 (a b : ascii) : bool :=
  ((nat_of_ascii a =? 194) && (nat_of_ascii b =? 160))%nat.

Definition is_white3 (a b c : ascii) : bool :=
  let x := nat_of_ascii a in
  let y := nat_of_ascii b in
  let z := nat_of_ascii c in
  ((x =? 225) && (y =? 154) && (z =? 128)
   || (x =? 226) && (y =? 128)
      && ((128 <=? z) && (z <=? 138) || (z =? 168) || (z =? 169) || (z =? 175))
   || (x =? 226) && (y =? 129) && (z =? 159)
   || (x =? 227) && (y =? 128) && (z =? 128)
   || (x =? 239) && (y =? 187) && (z =? 191))%nat.

Fixpoint trimStart (s : string) : string :=
  match s with
  | EmptyString => s
  | String a rest =>
      if is_ascii_white a then trimStart rest
      else match rest with
           | EmptyString => s
           | String b rest2 =>
               if is_white2 a b then trimStart rest2
               else match rest2 with
                    | EmptyString => s
                    | String c rest3 =>
                        if is_white3 a b c then trimStart rest3 else s
                    end
           end
  end.

Definition digit_value (radix : Z) (a : ascii) : option Z :=
  let n := Z.of_nat (nat_of_ascii a) in
  let d := if (48 <=? n) && (n <=? 57) then n - 48
           else if (97 <=? n) && (n <=? 122) then n - 87
           else if (65 <=? n) && (n <=? 90) then n - 55
           else radix in
  if d <? radix then Some d else None.

Fixpoint digits (radix : Z) (s : string) (acc : option Z) : option Z :=
  match s with
  | EmptyString => acc
  | String a rest =>
      match digit_value radix a with
      | Some d =>
          digits radix rest
            (Some (radix * match acc with Some n => n | None => 0 end + d))
      | None => acc
      end
  end.

Definition parseInt_string (s : string) : option Z :=
  let s := trimStart s in
  let '(sign, s) :=
    match s with
    | String "-" rest => (-1, rest)
    | String "+" rest => (1, rest)
    | _ => (1, s)
    end in
  let '(radix, s) :=
    match s with
    | String "0" (String "x" rest) => (16, rest)
    | String "0" (String "X" rest) => (16, rest)
    | _ => (10, s)
    end in
  option_map (Z.mul sign) (digits radix s None).

Definition parseInt (v : Value) : option Z := parseInt_string (toStr v).

(** [v === n] where [n] is the result of [parseInt]: [NaN] equals nothing. *)
Definition strict_eq_parsed (v : Value) (n : option Z) : bool :=
  match v, n with
  | VNum i, Some j => i =? j
  | _, _ => false
  end.

(** ** The transport *)

Inductive Body : Type :=
| NoBody
| JSONBody (v : Value)                       (* [JSON.stringify(v)] *)
| FormDataBody (entries : list (string * Value)).

(** The options bag of [fetch] and of [fetchAPI]. An absent [headers] is the
    empty map (spreading [undefined] adds nothing). *)
Record Init : Type := mkInit {
  method : option string;
  body : Body;
  headers : gmap string string;
  credentials : option string;
  mode : option string
}.

Definition no_options : Init := mkInit None NoBody ∅ None None.
Definition with_method (m : string) : Init := mkInit (Some m) NoBody ∅ None None.
Definition with_json (m : string) (v : Value) : Init :=
  mkInit (Some m) (JSONBody v) ∅ None None.

Record Response : Type := mkResponse {
  ok : bool;
  content_type : option string;      (* [response.headers.get("content-type")] *)
  json : Outcome;                    (* what [await response.json()] gives *)
  response_url : string              (* [response.url] *)
}.

Inductive Settled : Type :=
| Fulfilled (response : Response)
| Rejected (error : Error).

(** ** The core request function *)

Definition isFormData (b : Body) : bool :=
  match b with FormDataBody _ => true | _ => false end.

Definition defaultHeaders (options : Init) : gmap string string :=
  if isFormData (body options) then ∅
  else {[ "Content-Type" := "application/json" ]}.

(** [{ ...options, credentials, mode, headers: { ...defaultHeaders,
    ...options.headers } }]: in a spread the later entry wins, stdpp's union
    keeps the left one. *)
Definition fetchOptions (options : Init) : Init :=
  {| method := method options;
     body := body options;
     headers := headers options ∪ defaultHeaders options;
     credentials := Some "include";
     mode := Some "cors" |}.

Section Client.

(** The platform: [fetch] and the build-time environment. *)
Variable fetch : string -> Init -> Settled.
Variable NEXT_PUBLIC_API_URL : option string.

Definition API_URL : string :=
  match NEXT_PUBLIC_API_URL with
  | Some s => if String.eqb s "" then "http://localhost:8080" else s
  | None => "http://localhost:8080"
  end.

Definition fetchAPI (endpoint : string) (options : Init) : Outcome :=
  let url := API_URL ++ endpoint in
  match fetch url (fetchOptions options) with
  | Rejected error => Throw error
  | Fulfilled response =>
      let nonJSON :=
        if negb (ok response) then Throw (new_Error "An error occurred")
        else Return (VResponse (response_url response)) in
      match content_type response with
      | Some contentType =>
          if negb (String.eqb contentType "")
             && includes contentType "application/json"
          then
            match json response with
            | Throw error => Throw error
            | Return data =>
                if negb (ok response) then
                  match member data "error" with
                  | Throw error => Throw error
                  | Return err =>
                      Throw (new_Error (if truthy err then toStr err
                                        else "An error occurred"))
                  end
                else Return data
            end
          else nonJSON
      | None => nonJSON
      end
  end.

(** ** Asynchronous methods

    An endpoint method either returns, throws, or awaits the core request
    function on an endpoint and an options bag and goes on with the
    outcome. *)

Inductive Async : Type :=
| Resolve (v : Value)
| Reject (e : Error)
| FetchAPI (endpoint : string) (options : Init) (k : Outcome -> Async).

Definition settle (o : Outcome) : Async :=
  match o with
  | Return v => Resolve v
  | Throw e => Reject e
  end.

(** [fetchAPI(endpoint, options)], as a promise. *)
Definition await_fetchAPI (endpoint : string) (options : Init) : Async :=
  FetchAPI endpoint options settle.

Fixpoint bind (p : Async) (f : Value -> Async) : Async :=
  match p with
  | Resolve v => f v
  | Reject e => Reject e
  | FetchAPI endpoint options k =>
      FetchAPI endpoint options (fun o => bind (k o) f)
  end.

(** [try { p } catch (error) { handler }] *)
Fixpoint try_catch (p : Async) (handler : Error -> Async) : Async :=
  match p with
  | Resolve v => Resolve v
  | Reject e => handler e
  | FetchAPI endpoint options k =>
      FetchAPI endpoint options (fun o => try_catch (k o) handler)
  end.

(** A synchronous step that may throw. *)
Definition step (o : Outcome) (f : Value -> Async) : Async :=
  match o with
  | Return v => f v
  | Throw e => Reject e
  end.

Fixpoint run (p : Async) : Outcome :=
  match p with
  | Resolve v => Return v
  | Reject e => Throw e
  | FetchAPI endpoint options k => run (k (fetchAPI endpoint options))
  end.

(** The request a method issues first, if it issues one. *)
Definition request_of (p : Async) : option (string * Init) :=
  match p with
  | FetchAPI endpoint options _ => Some (endpoint, options)
  | _ => None
  end.

End Client.

Declare Scope async_scope.
Delimit Scope async_scope with async.
Bind Scope async_scope with Async.
Notation "x <- p ;; q" := (bind p (fun x => q))
  (at level 100, p at next level, right associativity) : async_scope.
Notation "x <~ o ;; q" := (step o (fun x => q))
  (at level 100, o at next level, right associativity) : async_scope.
Local Open Scope async_scope.

(** ** Mock data *)

Definition mockCommunity (id : Z) (title category : string) (member_count : Z)
    (description created_at : string) : Value :=
  VObj [("id", VNum id); ("title", VStr title); ("category", VStr category);
        ("member_count", VNum member_count); ("description", VStr description);
        ("created_at", VStr created_at); ("members", VArr [])].

Definition mockCommunities : list Value :=
  [ mockCommunity 1 "Cancer Survivors Support" "Support Groups" 1247
      "A supportive community for cancer survivors sharing experiences and hope."
      "2024-01-15T10:00:00Z";
    mockCommunity 2 "Nutrition & Wellness" "Health & Wellness" 892
      "Sharing healthy recipes and wellness tips for cancer patients and survivors."
      "2024-02-01T14:30:00Z";
    mockCommunity 3 "Caregivers Circle" "Caregivers" 634
      "Support and resources for family members and caregivers."
      "2024-01-20T09:15:00Z";
    mockCommunity 4 "Mental Health & Mindfulness" "Mental Health" 756
      "Focusing on mental wellness, meditation, and emotional support."
      "2024-02-10T16:45:00Z";
    mockCommunity 5 "Treatment Updates" "Medical" 423
      "Latest treatment options and medical breakthroughs discussion."
      "2024-02-15T11:20:00Z" ].

Definition mockPost (id : Z) (content : string) (author_id : Z)
    (author_name : string) (community_id : Z) (category created_at : string)
    (likes_count comments_count : Z) : Value :=
  VObj [("id", VNum id); ("content", VStr content); ("author_id", VNum author_id);
        ("author_name", VStr author_name); ("author_avatar", VNull);
        ("community_id", VNum community_id); ("category", VStr category);
        ("created_at", VStr created_at); ("likes_count", VNum likes_count);
        ("comments_count", VNum comments_count)].

Definition mockPost101 : Value :=
  mockPost 101
    "Just wanted to share that I completed my 6-month check-up today and everything looks great! 🎉 To anyone going through treatment right now - there is hope and light at the end of the tunnel."
    1 "Sarah Johnson" 1 "Support" "2024-02-20T14:30:00Z" 24 8.

Definition mockPost102 : Value :=
  mockPost 102
    "Found this amazing anti-inflammatory smoothie recipe that's been helping with my energy levels during treatment. Green tea, spinach, pineapple, and ginger - tastes better than it sounds! 🥤"
    2 "Mike Chen" 2 "Nutrition" "2024-02-19T10:15:00Z" 18 5.

Definition mockPost103 : Value :=
  mockPost 103
    "As a caregiver, I've learned that taking care of yourself isn't selfish - it's necessary. Remember to take breaks, ask for help, and be kind to yourself. You're doing an amazing job. ❤️"
    3 "Lisa Rodriguez" 3 "Caregiving" "2024-02-18T16:45:00Z" 31 12.

(** The own properties of the object literal [mockCommunityPosts]; numeric
    keys of a literal are the strings of their decimal numerals. *)
Definition mockCommunityPosts : list (string * Value) :=
  [("1", VArr [mockPost101]); ("2", VArr [mockPost102]); ("3", VArr [mockPost103])].

(** What an object literal inherits: the properties of [Object.prototype]
    (functions with their [length]). *)
Definition Object_prototype : list (string * Value) :=
  [("constructor", VFunction "Object" 1);
   ("__defineGetter__", VFunction "__defineGetter__" 2);
   ("__defineSetter__", VFunction "__defineSetter__" 2);
   ("hasOwnProperty", VFunction "hasOwnProperty" 1);
   ("__lookupGetter__", VFunction "__lookupGetter__" 1);
   ("__lookupSetter__", VFunction "__lookupSetter__" 1);
   ("isPrototypeOf", VFunction "isPrototypeOf" 1);
   ("propertyIsEnumerable", VFunction "propertyIsEnumerable" 1);
   ("toString", VFunction "toString" 0);
   ("valueOf", VFunction "valueOf" 0);
   ("toLocaleString", VFunction "toLocaleString" 0)].

(** [literal[key]] with a key chosen at run time: the key is converted to a
    string, own properties come first, then the prototype; the accessor
    [__proto__] gives the prototype object itself. *)
Definition computed_member (own : list (string * Value)) (key : Value) : Value :=
  let k := toStr key in
  match assoc k own with
  | Some v => v
  | None =>
      if String.eqb k "__proto__" then VObj Object_prototype
      else match assoc k Object_prototype with
           | Some v => v
           | None => VUndefined
           end
  end.

(** [{ ...obj, key: v }] *)
Definition spread_with (obj : Value) (key : string) (v : Value) : Value :=
  match obj with
  | VObj fields => VObj (set_field key v fields)
  | _ => VObj [(key, v)]
  end.

(** [a || b] on values *)
Definition or_else (a b : Value) : Value := if truthy a then a else b.

(** [v.toString()] *)
Definition toString_method (v : Value) : Outcome :=
  match member v "toString" with
  | Throw e => Throw e
  | Return _ => Return (VStr (toStr v))
  end.

(** The [params] bag of the activity methods: [{ page, limit, types,
    showHidden }], where [types], when given, is an array. (A call with
    [params = null], or with a [types] that has a length but no [join],
    throws before any request; the record leaves such calls out.) *)
Record ActivityParams : Type := mkActivityParams {
  page : Value;
  limit : Value;
  types : option (list Value);
  showHidden : Value
}.

(** [arr.join(",")] *)
Definition join_comma (items : list Value) : string := toStr (VArr items).

Definition form_data (file : Value) : Init :=
  mkInit (Some "POST") (FormDataBody [("file", file)]) ∅ None None.

Section Endpoints.

(** Platform functions used to build query strings:
    [encodeURIComponent] and the serialisation of a [URLSearchParams]. *)
Variable encodeURIComponent : string -> string.
Variable URLSearchParams_toString : list (string * string) -> string.

(** *** Auth API *)

Definition auth_register (userData : Value) : Async :=
  await_fetchAPI "/api/auth/register" (with_json "POST" userData).

Definition auth_login (credentials : Value) : Async :=
  await_fetchAPI "/api/auth/login" (with_json "POST" credentials).

Definition auth_logout : Async :=
  await_fetchAPI "/api/auth/logout" (with_method "POST").

Definition auth_getSession : Async :=
  try_catch (await_fetchAPI "/api/auth/session" no_options)
    (fun error =>
       if includes (message error) "No session token provided"
       then Resolve VNull
       else Reject error).

Definition auth_checkAuth : Async :=
  try_catch
    (session <- await_fetchAPI "/api/auth/session" no_options ;;
     Resolve (VObj [("isAuthenticated", VBool true); ("user", session)]))
    (fun error =>
       Resolve (VObj [("isAuthenticated", VBool false); ("user", VNull)])).

(** *** Posts API *)

(** The envelope the four list methods of the posts API wrap a bare array
    in. *)
Definition posts_envelope (data page limit : Value) : Value :=
  match data with
  | VArr items =>
      VObj [("posts", data); ("page", page); ("limit", limit);
            ("total", VNum (Z.of_nat (List.length items)));
            ("hasMore", VBool (num_strict_eq (Z.of_nat (List.length items)) limit))]
  | _ => data
  end.

Definition posts_getPosts_url (page limit category : Value) : string :=
  let url := "/api/posts?page=" ++ toStr page ++ "&limit=" ++ toStr limit in
  if truthy category && negb (str_strict_eq "all" category)
  then url ++ "&category=" ++ encodeURIComponent (toStr category)
  else url.

Definition posts_getPosts (page limit category : Value) : Async :=
  let page := default (VNum 1) page in
  let limit := default (VNum 10) limit in
  let category := default VNull category in
  data <- await_fetchAPI (posts_getPosts_url page limit category) no_options ;;
  Resolve (posts_envelope data page limit).

Definition posts_getLikedPosts (page limit : Value) : Async :=
  let page := default (VNum 1) page in
  let limit := default (VNum 10) limit in
  data <- await_fetchAPI
            ("/api/posts/liked?page=" ++ toStr page ++ "&limit=" ++ toStr limit)
            no_options ;;
  Resolve (posts_envelope data page limit).

Definition posts_getCommentedPosts (page limit : Value) : Async :=
  let page := default (VNum 1) page in
  let limit := default (VNum 10) limit in
  data <- await_fetchAPI
            ("/api/posts/commented?page=" ++ toStr page ++ "&limit=" ++ toStr limit)
            no_options ;;
  Resolve (posts_envelope data page limit).

Definition posts_getSavedPosts (page limit : Value) : Async :=
  let page := default (VNum 1) page in
  let limit := default (VNum 10) limit in
  data <- await_fetchAPI
            ("/api/posts/saved?page=" ++ toStr page ++ "&limit=" ++ toStr limit)
            no_options ;;
  Resolve (posts_envelope data page limit).

Definition posts_createPost (postData : Value) : Async :=
  await_fetchAPI "/api/posts" (with_json "POST" postData).

Definition posts_updatePost (postData : Value) : Async :=
  await_fetchAPI "/api/posts" (with_json "PUT" postData).

Definition posts_deletePost (postId : Value) : Async :=
  await_fetchAPI "/api/posts" (with_json "DELETE" (VObj [("id", postId)])).

Definition posts_getReactions (postId : Value) : Async :=
  await_fetchAPI ("/api/posts/" ++ toStr postId ++ "/reactions") no_options.

Definition posts_addReaction (postId reactionType : Value) : Async :=
  await_fetchAPI ("/api/posts/" ++ toStr postId ++ "/reactions")
    (with_json "POST" (VObj [("reaction_type", reactionType)])).

(** *** Comments API *)

Definition comments_getPostComments_url (postId page limit parentId : Value)
  : string :=
  let url := "/api/posts/" ++ toStr postId ++ "/comments?page=" ++ toStr page
             ++ "&limit=" ++ toStr limit in
  if truthy parentId then url ++ "&parentId=" ++ toStr parentId else url.

Definition comments_getPostComments (postId page limit parentId : Value)
  : Async :=
  let page := default (VNum 1) page in
  let limit := default (VNum 20) limit in
  let parentId := default VNull parentId in
  data <- await_fetchAPI
            (comments_getPostComments_url postId page limit parentId)
            no_options ;;
  match data with
  | VArr items =>
      Resolve (VObj [("comments", data); ("page", page); ("limit", limit);
                     ("total", VNum (Z.of_nat (List.length items)))])
  | _ => Resolve data
  end.

Definition comments_createComment (postId commentData : Value) : Async :=
  await_fetchAPI ("/api/posts/" ++ toStr postId ++ "/comments")
    (with_json "POST" commentData).

Definition comments_updateComment (commentId commentData : Value) : Async :=
  await_fetchAPI ("/api/comments/" ++ toStr commentId)
    (with_json "PUT" commentData).

Definition comments_deleteComment (commentId : Value) : Async :=
  await_fetchAPI ("/api/comments/" ++ toStr commentId) (with_method "DELETE").

Definition comments_getReactions (commentId : Value) : Async :=
  await_fetchAPI ("/api/comments/" ++ toStr commentId ++ "/reactions")
    no_options.

Definition comments_addReaction (commentId reactionType : Value) : Async :=
  await_fetchAPI ("/api/comments/" ++ toStr commentId ++ "/reactions")
    (with_json "POST" (VObj [("reaction_type", reactionType)])).

(** *** Communities API *)

Definition communities_getCommunities : Async :=
  try_catch
    (data <- await_fetchAPI "/api/communities" no_options ;;
     match data with
     | VArr items =>
         Resolve (VObj [("communities", data);
                        ("total", VNum (Z.of_nat (List.length items)))])
     | _ => Resolve data
     end)
    (fun error =>
       Resolve (VObj [("communities", VArr mockCommunities);
                      ("total", VNum (Z.of_nat (List.length mockCommunities)))])).

Definition communities_getAll : Async :=
  try_catch
    (data <- await_fetchAPI "/api/communities" no_options ;;
     if isArray data then Resolve data
     else listed <~ member data "communities" ;;
          Resolve (or_else listed (VArr [])))
    (fun error => Resolve (VArr mockCommunities)).

Definition communities_createCommunity (communityData : Value) : Async :=
  try_catch
    (await_fetchAPI "/api/communities" (with_json "POST" communityData))
    (fun error =>
       Reject (new_Error "Community creation not available in development mode")).

Definition communities_getCommunity (communityId : Value) : Async :=
  try_catch
    (path <~ ToString communityId ;;
     await_fetchAPI ("/api/communities/" ++ toStr communityId) no_options)
    (fun error =>
       (* [parseInt(communityId)] converts its argument to a string first *)
       text <~ ToString communityId ;;
       match find (fun c => strict_eq_parsed (get c "id") (parseInt communityId))
               mockCommunities with
       | Some mockCommunity =>
           Resolve (spread_with mockCommunity "members" (VArr []))
       | None => Reject error
       end).

Definition communities_updateCommunity (communityId communityData : Value)
  : Async :=
  await_fetchAPI ("/api/communities/" ++ toStr communityId)
    (with_json "PUT" communityData).

Definition communities_deleteCommunity (communityId : Value) : Async :=
  await_fetchAPI ("/api/communities/" ++ toStr communityId)
    (with_method "DELETE").

Definition communities_joinCommunity (communityId invitedBy : Value) : Async :=
  let invitedBy := default VNull invitedBy in
  try_catch
    (path <~ ToString communityId ;;
     await_fetchAPI ("/api/communities/" ++ toStr communityId ++ "/join")
       (with_json "POST" (VObj [("invited_by", invitedBy)])))
    (fun error =>
       (* [console.log(`Mock: Joined community ${communityId}`)] *)
       logged <~ ToString communityId ;;
       Resolve (VObj [("success", VBool true);
                      ("message", VStr "Successfully joined community")])).

Definition communities_leaveCommunity (communityId : Value) : Async :=
  await_fetchAPI ("/api/communities/" ++ toStr communityId ++ "/join")
    (with_method "DELETE").

Definition communities_inviteToCommunity (communityId userId : Value) : Async :=
  await_fetchAPI ("/api/communities/" ++ toStr communityId ++ "/invite")
    (with_json "POST" (VObj [("user_id", userId)])).

Definition communities_updateMember (communityId userId status : Value)
  : Async :=
  await_fetchAPI
    ("/api/communities/" ++ toStr communityId ++ "/members/" ++ toStr userId)
    (with_json "PUT" (VObj [("status", status)])).

Definition communities_removeMember (communityId userId : Value) : Async :=
  await_fetchAPI
    ("/api/communities/" ++ toStr communityId ++ "/members/" ++ toStr userId)
    (with_method "DELETE").

Definition communities_getPosts_url (communityId page limit : Value) : string :=
  "/api/communities/" ++ toStr communityId ++ "/posts?page=" ++ toStr page
  ++ "&limit=" ++ toStr limit.

Definition communities_getPosts (communityId page limit : Value) : Async :=
  let page := default (VNum 1) page in
  let limit := default (VNum 10) limit in
  try_catch
    (path <~ ToString communityId ;;
     pageText <~ ToString page ;;
     limitText <~ ToString limit ;;
     data <- await_fetchAPI (communities_getPosts_url communityId page limit)
               no_options ;;
     match data with
     | VArr items =>
         Resolve (VObj [("posts", data); ("page", page); ("limit", limit);
                        ("total", VNum (Z.of_nat (List.length items)))])
     | _ => Resolve data
     end)
    (fun error =>
       (* the property key of [mockCommunityPosts[communityId]] *)
       key <~ ToString communityId ;;
       let posts :=
         or_else (computed_member mockCommunityPosts communityId) (VArr []) in
       (* [console.log(`Using mock posts for community ${communityId}`)] *)
       logged <~ ToString communityId ;;
       Resolve (VObj [("posts", posts); ("page", page); ("limit", limit);
                      ("total", get posts "length")])).

Definition communities_createPost (communityId postData : Value) : Async :=
  await_fetchAPI ("/api/communities/" ++ toStr communityId ++ "/posts")
    (with_json "POST" postData).

Definition communities_getEvents (communityId : Value) : Async :=
  try_catch
    (path <~ ToString communityId ;;
     await_fetchAPI ("/api/communities/" ++ toStr communityId ++ "/events")
       no_options)
    (fun error =>
       (* [console.log(`No events available for community ${communityId}`)] *)
       logged <~ ToString communityId ;;
       Resolve (VArr [])).

Definition communities_createEvent (communityId eventData : Value) : Async :=
  await_fetchAPI ("/api/communities/" ++ toStr communityId ++ "/events")
    (with_json "POST" eventData).

Definition communities_respondToEvent (eventId response : Value) : Async :=
  await_fetchAPI ("/api/communities/events/" ++ toStr eventId ++ "/respond")
    (with_json "POST" (VObj [("response", response)])).

(** *** Users API ([getFollowers] is defined twice in the object literal;
    the later definition is the one in force) *)

Definition users_endpoint (userID : Value) (suffix : string) : string :=
  if truthy userID then "/api/users/" ++ toStr userID ++ "/" ++ suffix
  else "/api/users/" ++ suffix.

Definition users_getProfile (userId : Value) : Async :=
  await_fetchAPI (users_endpoint (default VNull userId) "profile") no_options.

Definition users_updateProfile (profileData : Value) : Async :=
  await_fetchAPI "/api/users/profile" (with_json "PUT" profileData).

Definition users_updatePrivacy (isPublic : Value) : Async :=
  await_fetchAPI "/api/users/profile/privacy"
    (with_json "PUT" (VObj [("is_public", isPublic)])).

Definition users_changePassword (currentPassword newPassword : Value) : Async :=
  await_fetchAPI "/api/users/change-password"
    (with_json "PUT" (VObj [("current_password", currentPassword);
                            ("new_password", newPassword)])).

Definition users_deleteAccount (password : Value) : Async :=
  await_fetchAPI "/api/users/account"
    (with_json "DELETE" (VObj [("password", password)])).

Definition users_getFollowers (userID : Value) : Async :=
  await_fetchAPI (users_endpoint (default VNull userID) "followers") no_options.

Definition users_getFollowing (userID : Value) : Async :=
  await_fetchAPI (users_endpoint (default VNull userID) "following") no_options.

Definition users_getFollowCounts (userID : Value) : Async :=
  await_fetchAPI (users_endpoint (default VNull userID) "counts") no_options.

Definition users_getFollowStatus (userID : Value) : Async :=
  await_fetchAPI ("/api/users/" ++ toStr userID ++ "/follow-status") no_options.

Definition users_followUser (userID : Value) : Async :=
  await_fetchAPI ("/api/users/" ++ toStr userID ++ "/follow")
    (with_method "POST").

Definition users_unfollowUser (userID : Value) : Async :=
  await_fetchAPI ("/api/users/" ++ toStr userID ++ "/follow")
    (with_method "DELETE").

Definition users_cancelFollowRequest (userID : Value) : Async :=
  await_fetchAPI ("/api/users/" ++ toStr userID ++ "/follow-request")
    (with_method "DELETE").

Definition users_acceptFollowRequest (userID : Value) : Async :=
  await_fetchAPI ("/api/users/" ++ toStr userID ++ "/accept-follow")
    (with_method "POST").

Definition users_getSuggestedUsers : Async :=
  await_fetchAPI "/api/users/suggested" no_options.

Definition users_getOnlineUsers : Async :=
  await_fetchAPI "/api/users/online" no_options.

Definition users_getAllUsers : Async :=
  await_fetchAPI "/api/users/all" no_options.

Definition users_acceptMessageRequest (requesterId : Value) : Async :=
  await_fetchAPI
    ("/api/users/accept-message-request?requester_id=" ++ toStr requesterId)
    (with_method "POST").

(** *** Messages API *)

Definition messages_getConversations : Async :=
  await_fetchAPI "/api/messages/conversations" no_options.

Definition messages_getMessages (userId page limit : Value) : Async :=
  let page := default (VNum 1) page in
  let limit := default (VNum 50) limit in
  await_fetchAPI
    ("/api/messages/" ++ toStr userId ++ "?page=" ++ toStr page
     ++ "&limit=" ++ toStr limit)
    no_options.

Definition messages_sendMessage (userId content : Value) : Async :=
  await_fetchAPI ("/api/messages/" ++ toStr userId)
    (with_json "POST" (VObj [("content", content)])).

Definition messages_markAsRead (userId : Value) : Async :=
  try_catch
    (result <- await_fetchAPI ("/api/messages/" ++ toStr userId ++ "/read")
                 (with_method "PUT") ;;
     Resolve result)
    (fun error => Reject error).

Definition messages_getUnreadCount : Async :=
  await_fetchAPI "/api/messages/unread-count" no_options.

Definition messages_getCommunityMessages (communityId page limit : Value)
  : Async :=
  let page := default (VNum 1) page in
  let limit := default (VNum 50) limit in
  await_fetchAPI
    ("/api/communities/" ++ toStr communityId ++ "/messages?page="
     ++ toStr page ++ "&limit=" ++ toStr limit)
    no_options.

Definition messages_sendCommunityMessage (communityId content : Value) : Async :=
  await_fetchAPI ("/api/communities/" ++ toStr communityId ++ "/messages")
    (with_json "POST" (VObj [("content", content)])).

(** *** Notifications API *)

Definition notifications_getNotifications (page limit : Value) : Async :=
  let page := default (VNum 1) page in
  let limit := default (VNum 20) limit in
  p <~ toString_method page ;;
  l <~ toString_method limit ;;
  await_fetchAPI
    ("/api/notifications?"
     ++ URLSearchParams_toString [("page", toStr p); ("limit", toStr l)])
    no_options.

Definition notifications_markAsRead (notificationId : Value) : Async :=
  await_fetchAPI ("/api/notifications/read?id=" ++ toStr notificationId)
    (with_method "PUT").

Definition notifications_markAllAsRead : Async :=
  await_fetchAPI "/api/notifications/read-all" (with_method "PUT").

Definition notifications_getUnreadCount : Async :=
  await_fetchAPI "/api/notifications/unread-count" no_options.

(** *** Activity API *)

Definition with_query (endpoint queryString : string) : string :=
  if negb (String.eqb queryString "") then endpoint ++ "?" ++ queryString
  else endpoint.

Definition append_if (cond : bool) (key value : string)
    (searchParams : list (string * string)) : list (string * string) :=
  if cond then (searchParams ++ [(key, value)])%list else searchParams.

Definition activity_getUserActivities (userID : Value) (params : ActivityParams)
  : Async :=
  let userID := default VNull userID in
  let endpoint :=
    if truthy userID then "/api/activity/" ++ toStr userID else "/api/activity" in
  let searchParams := [] in
  let searchParams :=
    append_if (truthy (page params)) "page" (toStr (page params)) searchParams in
  let searchParams :=
    append_if (truthy (limit params)) "limit" (toStr (limit params))
      searchParams in
  let searchParams :=
    match types params with
    | Some items =>
        append_if (0 <? Z.of_nat (List.length items)) "types" (join_comma items)
          searchParams
    | None => searchParams
    end in
  let searchParams :=
    append_if (truthy (showHidden params)) "show_hidden" "true" searchParams in
  let queryString := URLSearchParams_toString searchParams in
  await_fetchAPI (with_query endpoint queryString) no_options.

Definition activity_getUserPosts (userID : Value) (params : ActivityParams)
  : Async :=
  let userID := default VNull userID in
  let endpoint :=
    if truthy userID then "/api/activity/" ++ toStr userID ++ "/posts"
    else "/api/activity/posts" in
  let searchParams := [] in
  let searchParams :=
    append_if (truthy (page params)) "page" (toStr (page params)) searchParams in
  let searchParams :=
    append_if (truthy (limit params)) "limit" (toStr (limit params))
      searchParams in
  let queryString := URLSearchParams_toString searchParams in
  await_fetchAPI (with_query endpoint queryString) no_options.

Definition activity_hideActivity (activityID : Value) : Async :=
  await_fetchAPI ("/api/activity/" ++ toStr activityID ++ "/hide")
    (with_method "PUT").

Definition activity_unhideActivity (activityID : Value) : Async :=
  await_fetchAPI ("/api/activity/" ++ toStr activityID ++ "/unhide")
    (with_method "PUT").

Definition activity_getActivitySettings : Async :=
  await_fetchAPI "/api/activity/settings" no_options.

Definition activity_updateActivitySettings (settings : Value) : Async :=
  await_fetchAPI "/api/activity/settings" (with_json "PUT" settings).

(** *** Upload API *)

Definition upload_uploadFile (file : Value) : Async :=
  let formData := form_data file in
  try_catch
    (response <- await_fetchAPI "/api/upload" formData ;;
     if negb (truthy response) || negb (truthy (get response "url"))
     then Reject (new_Error "Invalid response from server")
     else Resolve response)
    (fun error => Reject error).

(** *** The API surface: one constructor per exported method *)

Inductive Group : Type :=
| Auth | Posts | Comments | Communities | Users | Messages
| Notifications | Activity | Upload.

Inductive Call : Type :=
| AuthRegister (userData : Value)
| AuthLogin (credentials : Value)
| AuthLogout
| AuthGetSession
| AuthCheckAuth
| PostsGetPosts (page limit category : Value)
| PostsGetLikedPosts (page limit : Value)
| PostsGetCommentedPosts (page limit : Value)
| PostsGetSavedPosts (page limit : Value)
| PostsCreatePost (postData : Value)
| PostsUpdatePost (postData : Value)
| PostsDeletePost (postId : Value)
| PostsGetReactions (postId : Value)
| PostsAddReaction (postId reactionType : Value)
| CommentsGetPostComments (postId page limit parentId : Value)
| CommentsCreateComment (postId commentData : Value)
| CommentsUpdateComment (commentId commentData : Value)
| CommentsDeleteComment (commentId : Value)
| CommentsGetReactions (commentId : Value)
| CommentsAddReaction (commentId reactionType : Value)
| CommunitiesGetCommunities
| CommunitiesGetAll
| CommunitiesCreateCommunity (communityData : Value)
| CommunitiesGetCommunity (communityId : Value)
| CommunitiesUpdateCommunity (communityId communityData : Value)
| CommunitiesDeleteCommunity (communityId : Value)
| CommunitiesJoinCommunity (communityId invitedBy : Value)
| CommunitiesLeaveCommunity (communityId : Value)
| CommunitiesInviteToCommunity (communityId userId : Value)
| CommunitiesUpdateMember (communityId userId status : Value)
| CommunitiesRemoveMember (communityId userId : Value)
| CommunitiesGetPosts (communityId page limit : Value)
| CommunitiesCreatePost (communityId postData : Value)
| CommunitiesGetEvents (communityId : Value)
| CommunitiesCreateEvent (communityId eventData : Value)
| CommunitiesRespondToEvent (eventId response : Value)
| UsersGetProfile (userId : Value)
| UsersUpdateProfile (profileData : Value)
| UsersUpdatePrivacy (isPublic : Value)
| UsersChangePassword (currentPassword newPassword : Value)
| UsersDeleteAccount (password : Value)
| UsersGetFollowers (userID : Value)
| UsersGetFollowing (userID : Value)
| UsersGetFollowCounts (userID : Value)
| UsersGetFollowStatus (userID : Value)
| UsersFollowUser (userID : Value)
| UsersUnfollowUser (userID : Value)
| UsersCancelFollowRequest (userID : Value)
| UsersAcceptFollowRequest (userID : Value)
| UsersGetSuggestedUsers
| UsersGetOnlineUsers
| UsersGetAllUsers
| UsersAcceptMessageRequest (requesterId : Value)
| MessagesGetConversations
| MessagesGetMessages (userId page limit : Value)
| MessagesSendMessage (userId content : Value)
| MessagesMarkAsRead (userId : Value)
| MessagesGetUnreadCount
| MessagesGetCommunityMessages (communityId page limit : Value)
| MessagesSendCommunityMessage (communityId content : Value)
| NotificationsGetNotifications (page limit : Value)
| NotificationsMarkAsRead (notificationId : Value)
| NotificationsMarkAllAsRead
| NotificationsGetUnreadCount
| ActivityGetUserActivities (userID : Value) (params : ActivityParams)
| ActivityGetUserPosts (userID : Value) (params : ActivityParams)
| ActivityHideActivity (activityID : Value)
| ActivityUnhideActivity (activityID : Value)
| ActivityGetActivitySettings
| ActivityUpdateActivitySettings (settings : Value)
| UploadUploadFile (file : Value).

Definition invoke (c : Call) : Async :=
  match c with
  | AuthRegister userData => auth_register userData
  | AuthLogin credentials => auth_login credentials
  | AuthLogout => auth_logout
  | AuthGetSession => auth_getSession
  | AuthCheckAuth => auth_checkAuth
  | PostsGetPosts page limit category => posts_getPosts page limit category
  | PostsGetLikedPosts page limit => posts_getLikedPosts page limit
  | PostsGetCommentedPosts page limit => posts_getCommentedPosts page limit
  | PostsGetSavedPosts page limit => posts_getSavedPosts page limit
  | PostsCreatePost postData => posts_createPost postData
  | PostsUpdatePost postData => posts_updatePost postData
  | PostsDeletePost postId => posts_deletePost postId
  | PostsGetReactions postId => posts_getReactions postId
  | PostsAddReaction postId reactionType => posts_addReaction postId reactionType
  | CommentsGetPostComments postId page limit parentId =>
      comments_getPostComments postId page limit parentId
  | CommentsCreateComment postId commentData =>
      comments_createComment postId commentData
  | CommentsUpdateComment commentId commentData =>
      comments_updateComment commentId commentData
  | CommentsDeleteComment commentId => comments_deleteComment commentId
  | CommentsGetReactions commentId => comments_getReactions commentId
  | CommentsAddReaction commentId reactionType =>
      comments_addReaction commentId reactionType
  | CommunitiesGetCommunities => communities_getCommunities
  | CommunitiesGetAll => communities_getAll
  | CommunitiesCreateCommunity communityData =>
      communities_createCommunity communityData
  | CommunitiesGetCommunity communityId => communities_getCommunity communityId
  | CommunitiesUpdateCommunity communityId communityData =>
      communities_updateCommunity communityId communityData
  | CommunitiesDeleteCommunity communityId =>
      communities_deleteCommunity communityId
  | CommunitiesJoinCommunity communityId invitedBy =>
      communities_joinCommunity communityId invitedBy
  | CommunitiesLeaveCommunity communityId =>
      communities_leaveCommunity communityId
  | CommunitiesInviteToCommunity communityId userId =>
      communities_inviteToCommunity communityId userId
  | CommunitiesUpdateMember communityId userId status =>
      communities_updateMember communityId userId status
  | CommunitiesRemoveMember communityId userId =>
      communities_removeMember communityId userId
  | CommunitiesGetPosts communityId page limit =>
      communities_getPosts communityId page limit
  | CommunitiesCreatePost communityId postData =>
      communities_createPost communityId postData
  | CommunitiesGetEvents communityId => communities_getEvents communityId
  | CommunitiesCreateEvent communityId eventData =>
      communities_createEvent communityId eventData
  | CommunitiesRespondToEvent eventId response =>
      communities_respondToEvent eventId response
  | UsersGetProfile userId => users_getProfile userId
  | UsersUpdateProfile profileData => users_updateProfile profileData
  | UsersUpdatePrivacy isPublic => users_updatePrivacy isPublic
  | UsersChangePassword currentPassword newPassword =>
      users_changePassword currentPassword newPassword
  | UsersDeleteAccount password => users_deleteAccount password
  | UsersGetFollowers userID => users_getFollowers userID
  | UsersGetFollowing userID => users_getFollowing userID
  | UsersGetFollowCounts userID => users_getFollowCounts userID
  | UsersGetFollowStatus userID => users_getFollowStatus userID
  | UsersFollowUser userID => users_followUser userID
  | UsersUnfollowUser userID => users_unfollowUser userID
  | UsersCancelFollowRequest userID => users_cancelFollowRequest userID
  | UsersAcceptFollowRequest userID => users_acceptFollowRequest userID
  | UsersGetSuggestedUsers => users_getSuggestedUsers
  | UsersGetOnlineUsers => users_getOnlineUsers
  | UsersGetAllUsers => users_getAllUsers
  | UsersAcceptMessageRequest requesterId =>
      users_acceptMessageRequest requesterId
  | MessagesGetConversations => messages_getConversations
  | MessagesGetMessages userId page limit =>
      messages_getMessages userId page limit
  | MessagesSendMessage userId content => messages_sendMessage userId content
  | MessagesMarkAsRead userId => messages_markAsRead userId
  | MessagesGetUnreadCount => messages_getUnreadCount
  | MessagesGetCommunityMessages communityId page limit =>
      messages_getCommunityMessages communityId page limit
  | MessagesSendCommunityMessage communityId content =>
      messages_sendCommunityMessage communityId content
  | NotificationsGetNotifications page limit =>
      notifications_getNotifications page limit
  | NotificationsMarkAsRead notificationId =>
      notifications_markAsRead notificationId
  | NotificationsMarkAllAsRead => notifications_markAllAsRead
  | NotificationsGetUnreadCount => notifications_getUnreadCount
  | ActivityGetUserActivities userID params =>
      activity_getUserActivities userID params
  | ActivityGetUserPosts userID params => activity_getUserPosts userID params
  | ActivityHideActivity activityID => activity_hideActivity activityID
  | ActivityUnhideActivity activityID => activity_unhideActivity activityID
  | ActivityGetActivitySettings => activity_getActivitySettings
  | ActivityUpdateActivitySettings settings =>
      activity_updateActivitySettings settings
  | UploadUploadFile file => upload_uploadFile file
  end.

End Endpoints.

Definition group (c : Call) : Group :=
  match c with
  | AuthRegister _ | AuthLogin _ | AuthLogout | AuthGetSession | AuthCheckAuth =>
      Auth
  | PostsGetPosts _ _ _ | PostsGetLikedPosts _ _ | PostsGetCommentedPosts _ _
  | PostsGetSavedPosts _ _ | PostsCreatePost _ | PostsUpdatePost _
  | PostsDeletePost _ | PostsGetReactions _ | PostsAddReaction _ _ => Posts
  | CommentsGetPostComments _ _ _ _ | CommentsCreateComment _ _
  | CommentsUpdateComment _ _ | CommentsDeleteComment _ | CommentsGetReactions _
  | CommentsAddReaction _ _ => Comments
  | CommunitiesGetCommunities | CommunitiesGetAll | CommunitiesCreateCommunity _
  | CommunitiesGetCommunity _ | CommunitiesUpdateCommunity _ _
  | CommunitiesDeleteCommunity _ | CommunitiesJoinCommunity _ _
  | CommunitiesLeaveCommunity _ | CommunitiesInviteToCommunity _ _
  | CommunitiesUpdateMember _ _ _ | CommunitiesRemoveMember _ _
  | CommunitiesGetPosts _ _ _ | CommunitiesCreatePost _ _
  | CommunitiesGetEvents _ | CommunitiesCreateEvent _ _
  | CommunitiesRespondToEvent _ _ => Communities
  | UsersGetProfile _ | UsersUpdateProfile _ | UsersUpdatePrivacy _
  | UsersChangePassword _ _ | UsersDeleteAccount _ | UsersGetFollowers _
  | UsersGetFollowing _ | UsersGetFollowCounts _ | UsersGetFollowStatus _
  | UsersFollowUser _ | UsersUnfollowUser _ | UsersCancelFollowRequest _
  | UsersAcceptFollowRequest _ | UsersGetSuggestedUsers | UsersGetOnlineUsers
  | UsersGetAllUsers | UsersAcceptMessageRequest _ => Users
  | MessagesGetConversations | MessagesGetMessages _ _ _ | MessagesSendMessage _ _
  | MessagesMarkAsRead _ | MessagesGetUnreadCount
  | MessagesGetCommunityMessages _ _ _ | MessagesSendCommunityMessage _ _ =>
      Messages
  | NotificationsGetNotifications _ _ | NotificationsMarkAsRead _
  | NotificationsMarkAllAsRead | NotificationsGetUnreadCount => Notifications
  | ActivityGetUserActivities _ _ | ActivityGetUserPosts _ _
  | ActivityHideActivity _ | ActivityUnhideActivity _
  | ActivityGetActivitySettings | ActivityUpdateActivitySettings _ => Activity
  | UploadUploadFile _ => Upload
  end.

(** The groups whose methods hand every failure to the caller as it is. *)
Definition propagating (g : Group) : bool :=
  match g with
  | Posts | Comments | Messages | Users | Notifications | Activity => true
  | _ => false
  end.

(** The community reads (and [join]) that answer a failure with mock data. *)
Definition community_read (c : Call) : bool :=
  match c with
  | CommunitiesGetCommunities | CommunitiesGetAll | CommunitiesGetCommunity _
  | CommunitiesGetPosts _ _ _ | CommunitiesGetEvents _
  | CommunitiesJoinCommunity _ _ => true
  | _ => false
  end.

(** The six list methods that wrap a bare array in an envelope, the limit
    each of them was asked for (after its default), and whether its envelope
    has a [hasMore] entry. *)
Definition list_method (c : Call) : bool :=
  match c with
  | PostsGetPosts _ _ _ | PostsGetLikedPosts _ _ | PostsGetCommentedPosts _ _
  | PostsGetSavedPosts _ _ | CommentsGetPostComments _ _ _ _
  | CommunitiesGetPosts _ _ _ => true
  | _ => false
  end.

Definition requested_limit (c : Call) : Value :=
  match c with
  | PostsGetPosts _ limit _ | PostsGetLikedPosts _ limit
  | PostsGetCommentedPosts _ limit | PostsGetSavedPosts _ limit
  | CommunitiesGetPosts _ _ limit => default (VNum 10) limit
  | CommentsGetPostComments _ _ limit _ => default (VNum 20) limit
  | _ => VUndefined
  end.

Definition posts_list_method (c : Call) : bool :=
  match c with
  | PostsGetPosts _ _ _ | PostsGetLikedPosts _ _ | PostsGetCommentedPosts _ _
  | PostsGetSavedPosts _ _ => true
  | _ => false
  end.

(** ** The reconnecting WebSocket helper

    The page's event loop, as far as [connectWebSocket] takes part in it: the
    sockets it has created, the timers it has pending, and the state of the
    caller, which only the message handler touches. The platform delivers
    events; [dispatch] runs the listener the helper installed for each. *)

Section Realtime.

Variable App : Type.
Variable JSON_parse : string -> Outcome.
Variable API_URL : string.
Variable location_protocol : string.

(** The caller's [onMessage]: it updates the caller's state and may throw. *)
Definition Handler : Type := Value -> App -> App * option Error.

Inductive ReadyState : Type := OPEN | CLOSED.

Record WebSocket : Type := mkWebSocket {
  ws_url : string;
  readyState : ReadyState;
  onMessage : Handler                (* captured by the three listeners *)
}.

(** A pending [setTimeout(() => connectWebSocket(onMessage), delay)]. *)
Record Timer : Type := mkTimer {
  delay : Z;
  reconnect_handler : Handler
}.

Record World : Type := mkWorld {
  app : App;
  sockets : list WebSocket;
  timers : list Timer
}.

Inductive Event : Type :=
| MessageEvent (ws : nat) (data : string)
| CloseEvent (ws : nat)
| ErrorEvent (ws : nat)
| TimerFires (timer : nat).

(** [API_URL.replace(/^https?:\/\//, "")] *)
Definition host : string :=
  if String.prefix "https://" API_URL
  then String.substring 8 (String.length API_URL - 8) API_URL
  else if String.prefix "http://" API_URL
  then String.substring 7 (String.length API_URL - 7) API_URL
  else API_URL.

Definition protocol : string :=
  if String.eqb location_protocol "https:" then "wss:" else "ws:".

(** Returns the new socket (its index) and the world that holds it. *)
Definition connectWebSocket (handler : Handler) (w : World) : nat * World :=
  let ws := mkWebSocket (protocol ++ "//" ++ host ++ "/ws") OPEN handler in
  (List.length (sockets w),
   mkWorld (app w) (sockets w ++ [ws])%list (timers w)).

Definition ws_onmessage (ws : WebSocket) (data : string) (w : World) : World :=
  match JSON_parse data with
  | Throw error => w
  | Return parsed =>
      let '(app', thrown) := onMessage ws parsed (app w) in
      mkWorld app' (sockets w) (timers w)
  end.

Definition ws_onclose (ws : WebSocket) (w : World) : World :=
  mkWorld (app w) (sockets w)
    (timers w ++ [mkTimer 5000 (onMessage ws)])%list.

Definition ws_onerror (ws : WebSocket) (w : World) : World := w.

Definition dispatch (w : World) (ev : Event) : World :=
  match ev with
  | MessageEvent i data =>
      match sockets w !! i with
      | Some ws => ws_onmessage ws data w
      | None => w
      end
  | CloseEvent i =>
      match sockets w !! i with
      | Some ws =>
          let closed := mkWebSocket (ws_url ws) CLOSED (onMessage ws) in
          ws_onclose ws (mkWorld (app w) (<[i := closed]> (sockets w)) (timers w))
      | None => w
      end
  | ErrorEvent i =>
      match sockets w !! i with
      | Some ws => ws_onerror ws w
      | None => w
      end
  | TimerFires j =>
      match timers w !! j with
      | Some t =>
          snd (connectWebSocket (reconnect_handler t)
                 (mkWorld (app w) (sockets w) (delete j (timers w))))
      | None => w
      end
  end.

End Realtime.

Arguments mkWebSocket {App}.
Arguments ws_url {App}.
Arguments readyState {App}.
Arguments onMessage {App}.
Arguments mkTimer {App}.
Arguments delay {App}.
Arguments reconnect_handler {App}.
Arguments mkWorld {App}.
Arguments app {App}.
Arguments sockets {App}.
Arguments timers {App}.
Arguments connectWebSocket {App}.
Arguments dispatch {App}.


(** ** Classes of methods

    The methods that are a bare [fetchAPI(...)] (or, for
    [messages.markAsRead], a request whose failure is thrown again): they add
    nothing to what the request gives. *)
Definition plain_method (c : Call) : bool :=
  match c with
  | AuthGetSession | AuthCheckAuth
  | PostsGetPosts _ _ _ | PostsGetLikedPosts _ _ | PostsGetCommentedPosts _ _
  | PostsGetSavedPosts _ _ | CommentsGetPostComments _ _ _ _
  | CommunitiesGetCommunities | CommunitiesGetAll | CommunitiesCreateCommunity _
  | CommunitiesGetCommunity _ | CommunitiesJoinCommunity _ _
  | CommunitiesGetPosts _ _ _ | CommunitiesGetEvents _
  | UploadUploadFile _ => false
  | _ => true
  end.

(** The arguments that the community methods with a fallback convert to a
    string (in the path of the request, and again in their [catch]), and
    whether their community id is a resource identifier. *)
Definition interpolated (c : Call) : list Value :=
  match c with
  | CommunitiesGetCommunity communityId | CommunitiesJoinCommunity communityId _
  | CommunitiesGetEvents communityId => [communityId]
  | CommunitiesGetPosts communityId page limit =>
      [communityId; default (VNum 1) page; default (VNum 10) limit]
  | _ => []
  end.

Definition id_is_resource (c : Call) : bool :=
  match c with
  | CommunitiesGetCommunity communityId | CommunitiesJoinCommunity communityId _
  | CommunitiesGetEvents communityId | CommunitiesGetPosts communityId _ _ =>
      resource_id communityId
  | _ => true
  end.

(** The methods whose every [catch] ends in a [return]. *)
Definition catches_everything (c : Call) : bool :=
  match c with
  | AuthCheckAuth | CommunitiesGetCommunities | CommunitiesGetAll
  | CommunitiesJoinCommunity _ _ | CommunitiesGetPosts _ _ _
  | CommunitiesGetEvents _ => true
  | _ => false
  end.

(** The entry of a list envelope that holds the array, and the page the
    method was asked for (after its default). *)
Definition envelope_key (c : Call) : string :=
  match c with
  | CommentsGetPostComments _ _ _ _ => "comments"
  | _ => "posts"
  end.

Definition requested_page (c : Call) : Value :=
  match c with
  | PostsGetPosts page _ _ | PostsGetLikedPosts page _
  | PostsGetCommentedPosts page _ | PostsGetSavedPosts page _
  | CommentsGetPostComments _ page _ _ | CommunitiesGetPosts _ page _ =>
      default (VNum 1) page
  | _ => VUndefined
  end.

(** ** Runs of the event loop

    The platform delivers message, close and error events only to a socket
    that is open, and fires only a timer that is pending. *)

Definition is_open {App : Type} (ws : WebSocket App) : bool :=
  match readyState ws with
  | OPEN => true
  | CLOSED => false
  end.

Definition enabled {App : Type} (w : World App) (ev : Event) : bool :=
  match ev with
  | MessageEvent i _ | CloseEvent i | ErrorEvent i =>
      match sockets w !! i with
      | Some ws => is_open ws
      | None => false
      end
  | TimerFires j =>
      match timers w !! j with
      | Some _ => true
      | None => false
      end
  end.

Section Runs.

Variable App : Type.
Variable JSON_parse : string -> Outcome.
Variable API_URL : string.
Variable location_protocol : string.

Fixpoint dispatch_all (w : World App) (evs : list Event) : World App :=
  match evs with
  | [] => w
  | ev :: rest =>
      dispatch_all (dispatch JSON_parse API_URL location_protocol w ev) rest
  end.

Fixpoint admissible (w : World App) (evs : list Event) : bool :=
  match evs with
  | [] => true
  | ev :: rest =>
      enabled w ev
      && admissible (dispatch JSON_parse API_URL location_protocol w ev) rest
  end.

(** The page right after [connectWebSocket(onMessage)] was called once. *)
Definition connected (handler : Handler App) (start : App) : World App :=
  snd (connectWebSocket API_URL location_protocol handler
         (mkWorld start [] [])).

End Runs.

Arguments dispatch_all {App}.
Arguments admissible {App}.
Arguments connected {App}.

Definition open_sockets {App : Type} (w : World App) : nat :=
  List.length (filter (fun ws => is_open ws = true) (sockets w)).

(** ** Sample platforms

    Concrete transports and platform functions on which the properties below
    are exercised. *)

(** A transport that is down: every request is rejected with [e]. *)
Definition offline (e : Error) : string -> Init -> Settled :=
  fun _ _ => Rejected e.

(** A backend that answers every request with status 200 and the JSON
    document [data]. *)
Definition json_reply (data : Value) : string -> Init -> Settled :=
  fun target _ =>
    Fulfilled (mkResponse true (Some "application/json") (Return data) target).

(** A backend that refuses every request with a JSON error document. *)
Definition json_refusal (data : Value) : string -> Init -> Settled :=
  fun target _ =>
    Fulfilled (mkResponse false (Some "application/json; charset=utf-8")
                 (Return data) target).

Definition failed_to_fetch : Error := new_TypeError "Failed to fetch".

Definition no_encoding (s : string) : string := s.

Definition plain_query (searchParams : list (string * string)) : string :=
  String.concat "&" (map (fun kv => fst kv ++ "=" ++ snd kv) searchParams).

(** A failure whose message mentions the missing session token inside a
    longer sentence. *)
Definition no_session_in_sentence : Error :=
  new_Error "Unauthorized: No session token provided (cookie missing)".

(** An options bag whose caller brings a content type of its own. *)
Definition plain_text_options : Init :=
  mkInit (Some "POST") (JSONBody (VStr "hello"))
    {[ "Content-Type" := "text/plain" ]} (Some "omit") (Some "no-cors").

(** A page with one open socket whose handler records what it is given, on
    a platform where no payload parses. *)
Definition never_parses : string -> Outcome :=
  fun _ => Throw (mkError "SyntaxError" "Unexpected token < in JSON at position 0").

Definition recorder : Handler (list Value) :=
  fun data seen => (data :: seen, None).

Definition one_socket_world : World (list Value) :=
  mkWorld []
    [mkWebSocket "ws://localhost:8080/ws" OPEN recorder] [].

(** A backend that answers every request with status 200 and a body that
    is not JSON. *)
Definition text_reply : string -> Init -> Settled :=
  fun target _ =>
    Fulfilled (mkResponse true (Some "text/plain")
                 (Throw (mkError "SyntaxError" "Unexpected token O in JSON"))
                 target).

(** A run of the page: two messages, an error, the close of the first
    socket, the reconnection, and a message on the new socket. *)
Definition sample_run : list Event :=
  [MessageEvent 0 "{}"; ErrorEvent 0; CloseEvent 0; TimerFires 0;
   MessageEvent 1 "[]"].

(** * Properties *)

(** ** Running asynchronous code *)

Section Running.

Variable fetch : string -> Init -> Settled.
Variable env : option string.

Lemma run_bind (p : Async) (f : Value -> Async) :
  run fetch env (bind p f)
  = match run fetch env p with
    | Return v => run fetch env (f v)
    | Throw e => Throw e
    end.
Proof.
  induction p as [v | e | endpoint options k IH]; simpl; [reflexivity .. | apply IH].
Qed.

Lemma run_try_catch (p : Async) (handler : Error -> Async) :
  run fetch env (try_catch p handler)
  = match run fetch env p with
    | Return v => Return v
    | Throw e => run fetch env (handler e)
    end.
Proof.
  induction p as [v | e | endpoint options k IH]; simpl; [reflexivity .. | apply IH].
Qed.

Lemma run_await_fetchAPI (endpoint : string) (options : Init) :
  run fetch env (await_fetchAPI endpoint options)
  = fetchAPI fetch env endpoint options.
Proof. simpl. destruct (fetchAPI fetch env endpoint options); reflexivity. Qed.

Lemma run_step (o : Outcome) (f : Value -> Async) :
  run fetch env (step o f)
  = match o with
    | Return v => run fetch env (f v)
    | Throw e => Throw e
    end.
Proof. destruct o; reflexivity. Qed.

(** A method that starts with a request runs its continuation on the
    outcome of that request. *)
Lemma run_request (p : Async) (endpoint : string) (options : Init) :
  request_of p = Some (endpoint, options) ->
  exists k, p = FetchAPI endpoint options k
            /\ run fetch env p = run fetch env (k (fetchAPI fetch env endpoint options)).
Proof.
  destruct p as [v | e | u o k]; simpl; intros H; try discriminate.
  injection H as -> ->. exists k. split; reflexivity.
Qed.

End Running.


(** ** Failure handling across the API surface *)

(** Case analysis on the conversions a method performs before its request
    and in its [catch]. *)
Ltac conversions_in H :=
  unfold communities_getCommunity, communities_joinCommunity,
    communities_getPosts, communities_getEvents, ToString in H;
  repeat match type of H with
         | context [converts ?v] =>
             let E := fresh "Hconverts" in
             destruct (converts v) eqn:E;
             cbn [step try_catch bind await_fetchAPI settle] in H
         end.

(** C4. Every method of the posts, comments, messages, users, notifications
    and activity groups hands the failure of its request to the caller
    unchanged; and whenever some method answers a failed request with a value
    instead, it is one of the community reads (list or get communities, list
    community posts, list events, join), or one of the two session methods
    with their fixed negative answers ([null], and the unauthenticated
    result), which are not mock data. *)
Theorem failures_propagate_outside_community_reads
    (fetch : string -> Init -> Settled) (env : option string)
    (enc : string -> string) (usp : list (string * string) -> string)
    (c : Call) (u : string) (o : Init) (e : Error) :
  request_of (invoke enc usp c) = Some (u, o) ->
  fetchAPI fetch env u o = Throw e ->
  (propagating (group c) = true ->
   run fetch env (invoke enc usp c) = Throw e)
  /\ (forall v, run fetch env (invoke enc usp c) = Return v ->
        community_read c = true
        \/ (c = AuthGetSession /\ v = VNull)
        \/ (c = AuthCheckAuth
            /\ v = VObj [("isAuthenticated", VBool false); ("user", VNull)])).
Proof.
  intros Hreq Hfetch.
  destruct (run_request fetch env _ _ _ Hreq) as (k & Hk & Hrun).
  rewrite Hrun, Hfetch. clear Hrun Hfetch Hreq.
  destruct c; simpl in Hk; conversions_in Hk; try discriminate Hk;
    try (injection Hk as _ _ <-; simpl; split;
         [ intros; (reflexivity || discriminate)
         | intros v Hv; try discriminate Hv; auto ]).
  - (* auth.getSession *)
    destruct (includes (message e) "No session token provided"); simpl in Hv;
      [ injection Hv as <-; auto | discriminate ].
  - (* auth.checkAuth *)
    injection Hv as <-. auto.
  - (* notifications.getNotifications *)
    destruct page0, limit0; simpl in Hk; try discriminate Hk;
      injection Hk as _ _ <-; simpl; split;
      intros; (reflexivity || discriminate).
Qed.

Lemma failures_propagate_witness :
  run (offline failed_to_fetch) None
    (invoke no_encoding plain_query (PostsCreatePost (VObj [("content", VStr "hi")])))
  = Throw failed_to_fetch.
Proof.
  apply (failures_propagate_outside_community_reads
           (offline failed_to_fetch) None no_encoding plain_query
           (PostsCreatePost (VObj [("content", VStr "hi")]))
           "/api/posts" (with_json "POST" (VObj [("content", VStr "hi")]))
           failed_to_fetch);
    reflexivity.
Defined.

(** The hypothesis that a request is issued leaves out these cases only:
    [getNotifications] with a [null] page or limit, which throws on
    [toString] before it asks for anything, and a community method with a
    fallback one of whose arguments cannot be converted to a string. *)
Lemma requestless_calls
    (enc : string -> string) (usp : list (string * string) -> string) (c : Call) :
  request_of (invoke enc usp c) = None ->
  (exists page limit,
     c = NotificationsGetNotifications page limit
     /\ (page = VNull \/ limit = VNull))
  \/ forallb converts (interpolated c) = false.
Proof.
  intros H.
  destruct c; simpl in H; try discriminate H;
    try (right; simpl; conversions_in H; try discriminate H; reflexivity).
  left. destruct page0, limit0; simpl in H; try discriminate H; eauto.
Qed.

Example getNotifications_null_page (fetch : string -> Init -> Settled) :
  run fetch None (notifications_getNotifications plain_query VNull VUndefined)
  = Throw (new_TypeError "Cannot read properties of null (reading 'toString')").
Proof. reflexivity. Qed.

(** ** [includes] is the substring test *)

Lemma prefix_iff (needle s : string) :
  String.prefix needle s = true <-> exists post, s = needle ++ post.
Proof.
  revert s. induction needle as [| a needle IH]; intros [| b s]; simpl.
  - split; [ intros _; exists ""; reflexivity | reflexivity ].
  - split; [ intros _; exists (String b s); reflexivity | reflexivity ].
  - split; [ discriminate | intros [post H]; discriminate H ].
  - destruct (Ascii.ascii_dec a b) as [-> | Hne].
    + rewrite IH. split; intros [post H]; exists post.
      * now rewrite H.
      * now injection H.
    + split; [ discriminate | intros [post H]; injection H; congruence ].
Qed.

Lemma includes_iff (s needle : string) :
  includes s needle = true <-> exists pre post, s = pre ++ needle ++ post.
Proof.
  induction s as [| a s IH]; cbn [includes]; rewrite orb_true_iff, prefix_iff.
  - split.
    + intros [[post H] | H]; [ | discriminate H ]. exists "", post. exact H.
    + intros (pre & post & H). left.
      destruct pre; [ now exists post | discriminate H ].
  - rewrite IH. split.
    + intros [[post H] | (pre & post & H)].
      * exists "", post. exact H.
      * exists (String a pre), post. simpl. now rewrite H.
    + intros (pre & post & H). destruct pre as [| b pre]; simpl in H.
      * left. now exists post.
      * right. injection H as _ H. now exists pre, post.
Qed.

Lemma append_empty_r (s : string) : s ++ "" = s.
Proof.
  induction s as [| a s IH]; [ reflexivity | ].
  change (String a (s ++ "") = String a s). now rewrite IH.
Qed.

Lemma includes_self (s : string) : includes s s = true.
Proof.
  apply includes_iff. exists "", "".
  change (s = s ++ ""). now rewrite append_empty_r.
Qed.

(** ** The session methods *)

(** C2, as the code has it. When the session request fails, [getSession]
    answers [null] exactly when the failure's message contains
    ["No session token provided"] as a substring (the exact message is one
    such case); every other failure reaches the caller unchanged. *)
Theorem getSession_suppresses_by_substring
    (fetch : string -> Init -> Settled) (env : option string) (e : Error) :
  fetchAPI fetch env "/api/auth/session" no_options = Throw e ->
  ((exists pre post, message e = pre ++ "No session token provided" ++ post) ->
   run fetch env auth_getSession = Return VNull)
  /\ (message e = "No session token provided" ->
      run fetch env auth_getSession = Return VNull)
  /\ (~ (exists pre post, message e = pre ++ "No session token provided" ++ post) ->
      run fetch env auth_getSession = Throw e).
Proof.
  intros Hfetch.
  assert (Hrun : run fetch env auth_getSession
                 = if includes (message e) "No session token provided"
                   then Return VNull else Throw e).
  { unfold auth_getSession. rewrite run_try_catch, run_await_fetchAPI, Hfetch.
    destruct (includes (message e) "No session token provided"); reflexivity. }
  rewrite Hrun. repeat split.
  - intros H. apply includes_iff in H. now rewrite H.
  - intros ->. now rewrite includes_self.
  - intros H.
    destruct (includes (message e) "No session token provided") eqn:E;
      [ | reflexivity ].
    exfalso. apply H. now apply includes_iff.
Qed.

Lemma getSession_suppresses_witness :
  run (offline no_session_in_sentence) None auth_getSession = Return VNull.
Proof.
  refine (proj1 (getSession_suppresses_by_substring
                   (offline no_session_in_sentence) None no_session_in_sentence
                   _) _).
  - reflexivity.
  - exists "Unauthorized: ", " (cookie missing)". reflexivity.
Defined.

(** C2 as stated fails: a failure whose message is not exactly
    ["No session token provided"] but contains it is answered with [null]
    and does not reach the caller. *)
Lemma getSession_not_exact_match :
  message no_session_in_sentence <> "No session token provided"
  /\ fetchAPI (offline no_session_in_sentence) None "/api/auth/session" no_options
     = Throw no_session_in_sentence
  /\ run (offline no_session_in_sentence) None auth_getSession = Return VNull
  /\ run (offline no_session_in_sentence) None auth_getSession
     <> Throw no_session_in_sentence.
Proof.
  split; [ intros H; vm_compute in H; discriminate H | ].
  split; [ reflexivity | ].
  split; [ reflexivity | intros H; vm_compute in H; discriminate H ].
Qed.

(** ** Community fallbacks *)

(** C6. When the request for the list of communities fails, in whatever way,
    [getCommunities] answers with the fixed mock list, which has exactly five
    entries, and [total] 5. *)
Theorem getCommunities_falls_back_to_mock
    (fetch : string -> Init -> Settled) (env : option string) (e : Error) :
  fetchAPI fetch env "/api/communities" no_options = Throw e ->
  run fetch env communities_getCommunities
  = Return (VObj [("communities", VArr mockCommunities); ("total", VNum 5)])
  /\ List.length mockCommunities = 5%nat.
Proof.
  intros Hfetch. split; [ | reflexivity ].
  unfold communities_getCommunities.
  now rewrite run_try_catch, run_bind, run_await_fetchAPI, Hfetch.
Qed.

Lemma getCommunities_falls_back_witness :
  run (offline failed_to_fetch) None communities_getCommunities
  = Return (VObj [("communities", VArr mockCommunities); ("total", VNum 5)])
  /\ List.length mockCommunities = 5%nat.
Proof.
  apply (getCommunities_falls_back_to_mock
           (offline failed_to_fetch) None failed_to_fetch).
  reflexivity.
Defined.

(** On a resource identifier every conversion succeeds. *)
Lemma resource_id_converts (v : Value) :
  resource_id v = true -> ToString v = Return (VStr (toStr v)).
Proof. destruct v; try discriminate; reflexivity. Qed.



(** An id that cannot be converted to a string is no resource identifier;
    with it the call is rejected before any request: the path of the request
    cannot be built, and the [catch] fails on its own log line. *)
Example joinCommunity_unconvertible_id (fetch : string -> Init -> Settled) :
  run fetch None
    (communities_joinCommunity (VObj [("toString", VNum 1)]) VUndefined)
  = Throw (new_TypeError "Cannot convert object to primitive value").
Proof. reflexivity. Qed.

(** The five seeded ids are 1 to 5, in this order. *)
Lemma mockCommunities_ids :
  map (fun c => get c "id") mockCommunities
  = [VNum 1; VNum 2; VNum 3; VNum 4; VNum 5].
Proof. reflexivity. Qed.




Lemma communities_getPosts_run
    (fetch : string -> Init -> Settled) (env : option string)
    (communityId page limit : Value) (e : Error) :
  resource_id communityId = true ->
  converts (default (VNum 1) page) = true ->
  converts (default (VNum 10) limit) = true ->
  fetchAPI fetch env
    (communities_getPosts_url communityId (default (VNum 1) page)
       (default (VNum 10) limit)) no_options = Throw e ->
  run fetch env (communities_getPosts communityId page limit)
  = let posts :=
      or_else (computed_member mockCommunityPosts communityId) (VArr []) in
    Return (VObj [("posts", posts); ("page", default (VNum 1) page);
                  ("limit", default (VNum 10) limit);
                  ("total", get posts "length")]).
Proof.
  intros Hid Hpage Hlimit Hfetch. unfold communities_getPosts.
  rewrite run_try_catch, !run_step, (resource_id_converts _ Hid).
  unfold ToString. rewrite Hpage, Hlimit, run_bind, run_await_fetchAPI, Hfetch.
  reflexivity.
Qed.

(** On a failed request, community 1 gets its one seeded post, and an id
    whose key is neither seeded nor inherited gets the empty list. *)
Lemma communities_getPosts_fallback_plain
    (fetch : string -> Init -> Settled) (env : option string)
    (communityId page limit : Value) (e : Error) :
  resource_id communityId = true ->
  converts (default (VNum 1) page) = true ->
  converts (default (VNum 10) limit) = true ->
  fetchAPI fetch env
    (communities_getPosts_url communityId (default (VNum 1) page)
       (default (VNum 10) limit)) no_options = Throw e ->
  (toStr communityId = "1" ->
   run fetch env (communities_getPosts communityId page limit)
   = Return (VObj [("posts", VArr [mockPost101]);
                   ("page", default (VNum 1) page);
                   ("limit", default (VNum 10) limit); ("total", VNum 1)]))
  /\ (assoc (toStr communityId) mockCommunityPosts = None ->
      assoc (toStr communityId) Object_prototype = None ->
      toStr communityId <> "__proto__" ->
      run fetch env (communities_getPosts communityId page limit)
      = Return (VObj [("posts", VArr []); ("page", default (VNum 1) page);
                      ("limit", default (VNum 10) limit); ("total", VNum 0)])).
Proof.
  intros Hid Hpage Hlimit Hfetch.
  rewrite (communities_getPosts_run _ _ _ _ _ _ Hid Hpage Hlimit Hfetch).
  unfold computed_member. split.
  - intros ->. reflexivity.
  - intros -> Hproto Hne. rewrite Hproto.
    destruct (String.eqb_spec (toStr communityId) "__proto__");
      [ contradiction | reflexivity ].
Qed.

(** C7, where the code departs from it. The key ["constructor"] is not seeded
    in [mockCommunityPosts], yet on a failed request [getPosts] does not
    answer with the empty list and [total] 0: the lookup finds the inherited
    [Object.prototype.constructor], which is truthy, so [posts] is that
    function and [total] is its [length], 1. *)
Theorem communities_getPosts_inherited_key :
  assoc "constructor" mockCommunityPosts = None
  /\ fetchAPI (offline failed_to_fetch) None
       (communities_getPosts_url (VStr "constructor") (VNum 1) (VNum 10))
       no_options = Throw failed_to_fetch
  /\ run (offline failed_to_fetch) None
       (communities_getPosts (VStr "constructor") (VNum 1) (VNum 10))
     = Return (VObj [("posts", VFunction "Object" 1); ("page", VNum 1);
                     ("limit", VNum 10); ("total", VNum 1)]).
Proof. repeat split. Qed.

(** ** Upload *)

(** What [uploadFile] makes of the outcome of its request. When the value
    that [fetchAPI] hands over has no [url] (the field is missing, or the
    value is no object at all), it fails with the invalid-response error;
    every failure of the request reaches the caller as it is: nothing is
    suppressed, nothing is replaced by mock data; and a value is returned
    only when it is that of the request and its [url] is truthy. *)
Theorem uploadFile_surfaces_errors
    (fetch : string -> Init -> Settled) (env : option string) (file : Value) :
  (forall response,
     fetchAPI fetch env "/api/upload" (form_data file) = Return response ->
     get response "url" = VUndefined ->
     run fetch env (upload_uploadFile file)
     = Throw (new_Error "Invalid response from server"))
  /\ (forall e,
        fetchAPI fetch env "/api/upload" (form_data file) = Throw e ->
        run fetch env (upload_uploadFile file) = Throw e)
  /\ (forall v, run fetch env (upload_uploadFile file) = Return v ->
        fetchAPI fetch env "/api/upload" (form_data file) = Return v
        /\ truthy (get v "url") = true).
Proof.
  assert (Hrun : run fetch env (upload_uploadFile file)
                 = match fetchAPI fetch env "/api/upload" (form_data file) with
                   | Return response =>
                       if negb (truthy response)
                          || negb (truthy (get response "url"))
                       then Throw (new_Error "Invalid response from server")
                       else Return response
                   | Throw e => Throw e
                   end).
  { unfold upload_uploadFile.
    rewrite run_try_catch, run_bind, run_await_fetchAPI.
    destruct (fetchAPI fetch env "/api/upload" (form_data file)) as [r | e];
      [ | reflexivity ].
    destruct (negb (truthy r) || negb (truthy (get r "url"))); reflexivity. }
  rewrite Hrun. split; [ | split ].
  - intros response -> Hurl. rewrite Hurl. simpl.
    now rewrite orb_true_r.
  - intros e ->. reflexivity.
  - intros v. destruct (fetchAPI fetch env "/api/upload" (form_data file))
      as [r | e]; [ | discriminate ].
    destruct (truthy r) eqn:Hr, (truthy (get r "url")) eqn:Hurl; simpl;
      try discriminate.
    intros H. injection H as <-. split; [ reflexivity | exact Hurl ].
Qed.

Lemma uploadFile_surfaces_errors_witness :
  run (json_reply (VObj [("id", VNum 7)])) None
    (upload_uploadFile (VFile "scan.png"))
  = Throw (new_Error "Invalid response from server").
Proof.
  refine (proj1 (uploadFile_surfaces_errors
                   (json_reply (VObj [("id", VNum 7)])) None (VFile "scan.png"))
            (VObj [("id", VNum 7)]) _ _); reflexivity.
Defined.

(** C8, where the code departs from it. A server that answers the upload
    with status ok and a body that is not JSON sends no [url] field. The
    core function then hands [uploadFile] the raw response object, and the
    check [!response.url] reads that object's own [url], the address the
    request went to: the check passes, and [uploadFile] returns the raw
    response as a successful upload instead of failing with the
    invalid-response error. *)
Theorem uploadFile_raw_response_passes_the_check :
  text_reply (API_URL None ++ "/api/upload")
    (fetchOptions (form_data (VFile "scan.png")))
  = Fulfilled (mkResponse true (Some "text/plain")
                 (Throw (mkError "SyntaxError" "Unexpected token O in JSON"))
                 "http://localhost:8080/api/upload")
  /\ fetchAPI text_reply None "/api/upload" (form_data (VFile "scan.png"))
     = Return (VResponse "http://localhost:8080/api/upload")
  /\ run text_reply None (upload_uploadFile (VFile "scan.png"))
     = Return (VResponse "http://localhost:8080/api/upload")
  /\ run text_reply None (upload_uploadFile (VFile "scan.png"))
     <> Throw (new_Error "Invalid response from server").
Proof.
  split; [ reflexivity | ]. split; [ reflexivity | ].
  split; [ reflexivity | discriminate ].
Qed.

(** ** List envelopes *)

(** C1, as the code has it. When the request of one of the six list methods
    succeeds with a bare array of length L, the method answers with an
    envelope whose [total] is L and whose [limit] is the requested limit.
    The four list methods of the posts API add [hasMore], which is
    [L === limit] (so [L = M] when the limit is the number M); the envelopes
    of [comments.getPostComments] and [communities.getPosts] have no
    [hasMore] entry at all. *)
Theorem list_envelope_total_and_hasMore
    (fetch : string -> Init -> Settled) (env : option string)
    (enc : string -> string) (usp : list (string * string) -> string)
    (c : Call) (u : string) (o : Init) (items : list Value) :
  list_method c = true ->
  request_of (invoke enc usp c) = Some (u, o) ->
  fetchAPI fetch env u o = Return (VArr items) ->
  exists r,
    run fetch env (invoke enc usp c) = Return r
    /\ get r "total" = VNum (Z.of_nat (List.length items))
    /\ get r "limit" = requested_limit c
    /\ get r "hasMore"
       = (if posts_list_method c
          then VBool (num_strict_eq (Z.of_nat (List.length items))
                        (requested_limit c))
          else VUndefined)
    /\ (forall M, posts_list_method c = true -> requested_limit c = VNum M ->
          get r "hasMore" = VBool (Z.of_nat (List.length items) =? M)).
Proof.
  intros Hlist Hreq Hfetch.
  destruct (run_request fetch env _ _ _ Hreq) as (k & Hk & Hrun).
  rewrite Hrun, Hfetch. clear Hrun Hfetch Hreq.
  destruct c; try discriminate Hlist; simpl in Hk; conversions_in Hk;
    try discriminate Hk; injection Hk as _ _ <-;
    eexists; (split; [ reflexivity | ]); repeat split;
    try discriminate; intros M _ HM; simpl in HM; simpl; now rewrite HM.
Qed.

Lemma list_envelope_witness :
  exists r,
    run (json_reply (VArr [VStr "a"; VStr "b"])) None
      (invoke no_encoding plain_query (PostsGetSavedPosts (VNum 1) (VNum 2)))
    = Return r
    /\ get r "total" = VNum (Z.of_nat (List.length [VStr "a"; VStr "b"]))
    /\ get r "limit" = requested_limit (PostsGetSavedPosts (VNum 1) (VNum 2))
    /\ get r "hasMore"
       = (if posts_list_method (PostsGetSavedPosts (VNum 1) (VNum 2))
          then VBool (num_strict_eq (Z.of_nat (List.length [VStr "a"; VStr "b"]))
                        (requested_limit (PostsGetSavedPosts (VNum 1) (VNum 2))))
          else VUndefined)
    /\ (forall M,
          posts_list_method (PostsGetSavedPosts (VNum 1) (VNum 2)) = true ->
          requested_limit (PostsGetSavedPosts (VNum 1) (VNum 2)) = VNum M ->
          get r "hasMore" = VBool (Z.of_nat (List.length [VStr "a"; VStr "b"]) =? M)).
Proof.
  apply (list_envelope_total_and_hasMore
           (json_reply (VArr [VStr "a"; VStr "b"])) None no_encoding plain_query
           (PostsGetSavedPosts (VNum 1) (VNum 2))
           "/api/posts/saved?page=1&limit=2" no_options);
    reflexivity.
Defined.

(** C1 as stated fails for two of the six methods: with a bare array of
    length 1 and requested limit 1, the envelopes of
    [comments.getPostComments] and of [communities.getPosts] have [total] 1
    but no [hasMore], where the claim wants [hasMore] to be true. *)
Lemma list_envelope_without_hasMore :
  (fetchAPI (json_reply (VArr [VStr "a"])) None
     (comments_getPostComments_url (VNum 4) (VNum 1) (VNum 1) VNull) no_options
   = Return (VArr [VStr "a"])
   /\ exists r,
       run (json_reply (VArr [VStr "a"])) None
         (comments_getPostComments (VNum 4) (VNum 1) (VNum 1) VUndefined)
       = Return r
       /\ get r "total" = VNum 1
       /\ get r "hasMore" = VUndefined
       /\ get r "hasMore" <> VBool (1 =? 1))
  /\ (fetchAPI (json_reply (VArr [VStr "a"])) None
        (communities_getPosts_url (VNum 4) (VNum 1) (VNum 1)) no_options
      = Return (VArr [VStr "a"])
      /\ exists r,
          run (json_reply (VArr [VStr "a"])) None
            (communities_getPosts (VNum 4) (VNum 1) (VNum 1))
          = Return r
          /\ get r "total" = VNum 1
          /\ get r "hasMore" = VUndefined
          /\ get r "hasMore" <> VBool (1 =? 1)).
Proof.
  split; (split; [ reflexivity | ]); eexists;
    (split; [ reflexivity | ]); repeat split; discriminate.
Qed.

(** ** The request the core function builds *)

(** The transport sees the caller's options only as [fetchOptions] makes
    them, at [API_URL] followed by the endpoint. *)
Lemma fetchAPI_request
    (fetch1 fetch2 : string -> Init -> Settled) (env : option string)
    (endpoint : string) (options : Init) :
  fetch1 (API_URL env ++ endpoint) (fetchOptions options)
  = fetch2 (API_URL env ++ endpoint) (fetchOptions options) ->
  fetchAPI fetch1 env endpoint options = fetchAPI fetch2 env endpoint options.
Proof. intros H. unfold fetchAPI. now rewrite H. Qed.

Lemma fetchOptions_content_type (options : Init) :
  headers (fetchOptions options) !! "Content-Type"
  = match headers options !! "Content-Type" with
    | Some contentType => Some contentType
    | None =>
        if isFormData (body options) then None else Some "application/json"
    end.
Proof.
  unfold fetchOptions, defaultHeaders. cbn [headers].
  rewrite lookup_union.
  destruct (headers options !! "Content-Type") as [contentType |];
    destruct (isFormData (body options));
    rewrite ?lookup_empty, ?lookup_singleton_eq; reflexivity.
Qed.



(** The content type is a default of the core function, not an override:
    were one of its callers to bring a [Content-Type] of its own, that one
    would be sent (credentials and mode are overridden all the same). No
    endpoint method does so ([endpoint_methods_pass_no_headers]). *)
Lemma caller_content_type_wins :
  isFormData (body plain_text_options) = false
  /\ credentials (fetchOptions plain_text_options) = Some "include"
  /\ mode (fetchOptions plain_text_options) = Some "cors"
  /\ headers (fetchOptions plain_text_options) !! "Content-Type"
     = Some "text/plain"
  /\ headers (fetchOptions plain_text_options) !! "Content-Type"
     <> Some "application/json".
Proof.
  assert (H : headers (fetchOptions plain_text_options) !! "Content-Type"
              = Some "text/plain").
  { rewrite fetchOptions_content_type. unfold plain_text_options.
    cbn [headers]. now rewrite lookup_singleton_eq. }
  do 3 (split; [ reflexivity | ]).
  split; [ exact H | rewrite H; discriminate ].
Qed.

(** ** The reconnecting WebSocket *)

Section RealtimeProperties.

Variable App : Type.
Variable JSON_parse : string -> Outcome.
Variable API_URL : string.
Variable location_protocol : string.

(** A message never touches the sockets or the timers, whatever its
    payload and whatever the handler does. *)
Lemma message_keeps_connections (w : World App) (i : nat) (data : string) :
  sockets (dispatch JSON_parse API_URL location_protocol w (MessageEvent i data))
  = sockets w
  /\ timers (dispatch JSON_parse API_URL location_protocol w
               (MessageEvent i data))
     = timers w.
Proof.
  simpl. destruct (sockets w !! i) as [ws |]; [ | split; reflexivity ].
  unfold ws_onmessage. destruct (JSON_parse data) as [parsed | error];
    [ | split; reflexivity ].
  destruct (onMessage ws parsed (app w)); split; reflexivity.
Qed.

(** C5. A close event on a socket of the helper schedules exactly one timer,
    with the fixed delay of 5000 ms, that carries the socket's own message
    handler; when that timer fires it is consumed and one new open socket is
    created with that same handler. A message whose payload does not parse
    leaves the whole world as it was: the failure is swallowed, no socket is
    closed, and the handler is not run. *)
Theorem close_schedules_one_reconnect
    (w : World App) (i : nat) (ws : WebSocket App) :
  sockets w !! i = Some ws ->
  let closed :=
    dispatch JSON_parse API_URL location_protocol w (CloseEvent i) in
  let reconnected :=
    dispatch JSON_parse API_URL location_protocol closed
      (TimerFires (List.length (timers w))) in
  timers closed = (timers w ++ [mkTimer 5000 (onMessage ws)])%list
  /\ List.length (sockets closed) = List.length (sockets w)
  /\ timers reconnected = timers w
  /\ (exists ws',
        sockets reconnected = (sockets closed ++ [ws'])%list
        /\ onMessage ws' = onMessage ws
        /\ readyState ws' = OPEN)
  /\ (forall data error,
        JSON_parse data = Throw error ->
        dispatch JSON_parse API_URL location_protocol w (MessageEvent i data)
        = w)
  /\ (forall data,
        sockets (dispatch JSON_parse API_URL location_protocol w
                   (MessageEvent i data))
        = sockets w
        /\ timers (dispatch JSON_parse API_URL location_protocol w
                     (MessageEvent i data))
           = timers w).
Proof.
  intros Hws closed reconnected.
  assert (Hclosed : closed
                    = mkWorld (app w)
                        (<[i := mkWebSocket (ws_url ws) CLOSED
                                  (onMessage ws)]> (sockets w))
                        (timers w ++ [mkTimer 5000 (onMessage ws)])%list).
  { unfold closed. simpl. now rewrite Hws. }
  assert (Hre : reconnected
                = snd (connectWebSocket API_URL location_protocol
                         (onMessage ws)
                         (mkWorld (app closed) (sockets closed)
                            (timers w)))).
  { unfold reconnected. rewrite Hclosed. cbn [dispatch timers sockets app].
    rewrite list_lookup_middle by reflexivity.
    cbn [reconnect_handler]. rewrite delete_middle, app_nil_r. reflexivity. }
  split; [ now rewrite Hclosed | ].
  split; [ rewrite Hclosed; cbn [sockets]; apply length_insert | ].
  split; [ now rewrite Hre | ].
  split.
  - rewrite Hre. eexists. cbn [connectWebSocket snd sockets].
    split; [ reflexivity | split; reflexivity ].
  - split; [ | intros data; apply message_keeps_connections ].
    intros data error Hparse. simpl. rewrite Hws.
    unfold ws_onmessage. now rewrite Hparse.
Qed.

End RealtimeProperties.

Lemma close_schedules_one_reconnect_witness :
  timers
    (dispatch never_parses "http://localhost:8080" "http:"
       one_socket_world (CloseEvent 0))
  = [mkTimer 5000 recorder].
Proof.
  exact (proj1 (close_schedules_one_reconnect (list Value) never_parses
                  "http://localhost:8080" "http:" one_socket_world 0%nat
                  (mkWebSocket "ws://localhost:8080/ws" OPEN recorder)
                  eq_refl)).
Defined.

(** ** Sanity checks of the model on concrete inputs *)

Example parseInt_examples :
  parseInt (VStr "1") = Some 1 /\ parseInt (VNum 4) = Some 4
  /\ parseInt (VStr "  -12px") = Some (-12) /\ parseInt (VStr "0x1f") = Some 31
  /\ parseInt (VStr "abc") = None /\ parseInt VNull = None
  /\ parseInt (VStr "0x") = None /\ parseInt (VArr [VNum 3; VNum 9]) = Some 3.
Proof. vm_compute. repeat split; reflexivity. Qed.

Example fetchAPI_api_error :
  fetchAPI (json_refusal (VObj [("error", VStr "Unauthorized")])) None
    "/api/posts" no_options
  = Throw (new_Error "Unauthorized")
  /\ fetchAPI (json_refusal (VObj [])) None "/api/posts" no_options
     = Throw (new_Error "An error occurred")
  /\ fetchAPI (json_reply (VArr [])) (Some "https://api.example.org")
       "/api/posts" no_options
     = Return (VArr []).
Proof. repeat split. Qed.

Example connectWebSocket_url :
  sockets
    (snd (connectWebSocket "https://api.example.org" "https:"
            recorder (mkWorld [] [] [])))
  = [mkWebSocket "wss://api.example.org/ws" OPEN recorder].
Proof. reflexivity. Qed.

Example getPosts_default_limit :
  run (json_reply (VArr [VNum 1; VNum 2])) None
    (posts_getPosts no_encoding VUndefined VUndefined (VStr "news"))
  = Return (VObj [("posts", VArr [VNum 1; VNum 2]); ("page", VNum 1);
                  ("limit", VNum 10); ("total", VNum 2);
                  ("hasMore", VBool false)])
  /\ posts_getPosts_url no_encoding (VNum 1) (VNum 10) (VStr "news")
     = "/api/posts?page=1&limit=10&category=news".
Proof. split; reflexivity. Qed.

(** * Further properties of the client *)

(** ** What the core request function gives back *)

(** X1. [fetchAPI] gives a value only for a response whose status is ok: the
    parsed body when the content type mentions [application/json], the raw
    response otherwise (no content type, or another one). *)
Theorem fetchAPI_value_only_when_ok
    (fetch : string -> Init -> Settled) (env : option string)
    (endpoint : string) (options : Init) (v : Value) :
  fetchAPI fetch env endpoint options = Return v ->
  exists response,
    fetch (API_URL env ++ endpoint) (fetchOptions options) = Fulfilled response
    /\ ok response = true
    /\ ((exists contentType,
           content_type response = Some contentType
           /\ includes contentType "application/json" = true
           /\ json response = Return v)
        \/ ((forall contentType,
               content_type response = Some contentType ->
               includes contentType "application/json" = false)
            /\ v = VResponse (response_url response))).
Proof.
  unfold fetchAPI.
  destruct (fetch (API_URL env ++ endpoint) (fetchOptions options))
    as [response | error]; [ | discriminate ].
  intros H. exists response. split; [ reflexivity | ].
  destruct (content_type response) as [contentType |] eqn:Htype.
  - destruct (String.eqb_spec contentType "") as [-> | Hne]; simpl in H.
    + destruct (ok response); simpl in H; [ | discriminate ].
      injection H as <-. split; [ reflexivity | ]. right.
      split; [ | reflexivity ]. intros ct Hct. now injection Hct as <-.
    + destruct (includes contentType "application/json") eqn:Hjson.
      * destruct (json response) as [data | error]; [ | discriminate ].
        destruct (ok response); simpl in H.
        -- injection H as <-. split; [ reflexivity | ]. left. eauto.
        -- destruct (member data "error"); discriminate.
      * destruct (ok response); simpl in H; [ | discriminate ].
        injection H as <-. split; [ reflexivity | ]. right.
        split; [ | reflexivity ]. intros ct Hct. now injection Hct as <-.
  - destruct (ok response); simpl in H; [ | discriminate ].
    injection H as <-. split; [ reflexivity | ]. right.
    split; [ | reflexivity ]. intros ct Hct. discriminate Hct.
Qed.

Lemma fetchAPI_value_only_when_ok_witness :
  exists response,
    json_reply (VArr []) (API_URL None ++ "/api/posts") (fetchOptions no_options)
    = Fulfilled response
    /\ ok response = true
    /\ ((exists contentType,
           content_type response = Some contentType
           /\ includes contentType "application/json" = true
           /\ json response = Return (VArr []))
        \/ ((forall contentType,
               content_type response = Some contentType ->
               includes contentType "application/json" = false)
            /\ VArr [] = VResponse (response_url response))).
Proof.
  apply (fetchAPI_value_only_when_ok (json_reply (VArr [])) None "/api/posts"
           no_options (VArr [])).
  reflexivity.
Defined.



(** X3. Building the request never loses what the caller asked for: the
    method, the body and every header of the caller are kept as they are, and
    [Content-Type] is the only header the client may add. *)
Theorem fetchOptions_keeps_the_callers_request (options : Init) :
  method (fetchOptions options) = method options
  /\ body (fetchOptions options) = body options
  /\ (forall key value,
        headers options !! key = Some value ->
        headers (fetchOptions options) !! key = Some value)
  /\ (forall key,
        key <> "Content-Type" ->
        headers (fetchOptions options) !! key = headers options !! key).
Proof.
  split; [ reflexivity | ]. split; [ reflexivity | ].
  unfold fetchOptions, defaultHeaders. cbn [headers]. split.
  - intros key value H. rewrite lookup_union, H. clear H.
    destruct (isFormData (body options)); destruct (_ !! key); reflexivity.
  - intros key Hkey. rewrite lookup_union.
    destruct (isFormData (body options));
      rewrite ?lookup_empty, ?lookup_singleton_ne by congruence;
      destruct (headers options !! key); reflexivity.
Qed.

Lemma fetchOptions_keeps_the_callers_request_witness :
  headers (fetchOptions plain_text_options) !! "Content-Type" = Some "text/plain".
Proof.
  apply (proj1 (proj2 (proj2 (fetchOptions_keeps_the_callers_request
                                plain_text_options)))).
  unfold plain_text_options. cbn [headers]. apply lookup_singleton_eq.
Defined.

(** ** Methods that add nothing, and methods that never fail *)

(** X4. A plain method gives exactly what its request gives, value or
    failure: this holds for every method that is a bare [fetchAPI(...)] and
    for [messages.markAsRead], whose [catch] throws the error again. *)
Theorem plain_methods_pass_through
    (fetch : string -> Init -> Settled) (env : option string)
    (enc : string -> string) (usp : list (string * string) -> string)
    (c : Call) (u : string) (o : Init) :
  plain_method c = true ->
  request_of (invoke enc usp c) = Some (u, o) ->
  run fetch env (invoke enc usp c) = fetchAPI fetch env u o.
Proof.
  intros Hplain Hreq.
  destruct (run_request fetch env _ _ _ Hreq) as (k & Hk & Hrun).
  rewrite Hrun. clear Hrun Hreq.
  destruct c; try discriminate Hplain; simpl in Hk;
    try (injection Hk as _ _ <-; simpl;
         destruct (fetchAPI fetch env u o); reflexivity).
  destruct page0, limit0; simpl in Hk; try discriminate Hk;
    injection Hk as _ _ <-; simpl;
    destruct (fetchAPI fetch env u o); reflexivity.
Qed.

Lemma plain_methods_pass_through_witness :
  run (json_reply (VNum 3)) None
    (invoke no_encoding plain_query (MessagesMarkAsRead (VNum 12)))
  = fetchAPI (json_reply (VNum 3)) None "/api/messages/12/read"
      (with_method "PUT").
Proof.
  apply (plain_methods_pass_through (json_reply (VNum 3)) None no_encoding
           plain_query (MessagesMarkAsRead (VNum 12)));
    reflexivity.
Defined.

(** X5. [auth.checkAuth], [communities.getCommunities], [getAll],
    [joinCommunity], [getPosts] and [getEvents] never fail: whatever the
    transport does, for every community id that is a string or an integer
    and whatever their other arguments are, they return a value. *)
Theorem catching_methods_never_fail
    (fetch : string -> Init -> Settled) (env : option string)
    (enc : string -> string) (usp : list (string * string) -> string)
    (c : Call) :
  catches_everything c = true ->
  id_is_resource c = true ->
  exists v, run fetch env (invoke enc usp c) = Return v.
Proof.
  intros Hc Hid.
  destruct c; try discriminate Hc; simpl in Hid;
    unfold invoke, communities_joinCommunity, communities_getPosts,
      communities_getEvents;
    try rewrite (resource_id_converts _ Hid);
    unfold ToString;
    repeat match goal with
           | |- context [converts ?v] => destruct (converts v)
           end;
    simpl;
    try match goal with
        | |- context [fetchAPI fetch env ?u ?o] =>
            destruct (fetchAPI fetch env u o) as [data | error]
        end;
    simpl; eauto; destruct data; simpl; eauto.
Qed.

Lemma catching_methods_never_fail_witness :
  exists v,
    run (offline failed_to_fetch) None
      (invoke no_encoding plain_query (CommunitiesGetEvents (VNum 2)))
    = Return v.
Proof.
  apply (catching_methods_never_fail (offline failed_to_fetch) None
           no_encoding plain_query (CommunitiesGetEvents (VNum 2)));
    reflexivity.
Defined.

(** X6. [communities.getAll] returns the list that [getCommunities] returns
    under [communities] (or the empty list when there is none), whatever the
    transport does, with one exception: when the response is the JSON value
    [null], [getCommunities] returns [null] while [getAll] swallows the
    [TypeError] of reading [null.communities] and returns the mock list. *)
Theorem getAll_agrees_with_getCommunities
    (fetch : string -> Init -> Settled) (env : option string) :
  exists r,
    run fetch env communities_getCommunities = Return r
    /\ run fetch env communities_getAll
       = Return match r with
                | VNull | VUndefined => VArr mockCommunities
                | _ => or_else (get r "communities") (VArr [])
                end.
Proof.
  unfold communities_getCommunities, communities_getAll.
  rewrite !run_try_catch, !run_bind, run_await_fetchAPI.
  destruct (fetchAPI fetch env "/api/communities" no_options) as [data | error].
  - destruct data; eexists; split; reflexivity.
  - eexists; split; reflexivity.
Qed.

(** X7. [communities.createCommunity] hides why the request failed: whatever
    the failure, the caller gets the same fixed error; a successful creation
    is passed on. It never answers a failure with a value. *)
Theorem createCommunity_masks_the_failure
    (fetch : string -> Init -> Settled) (env : option string)
    (communityData : Value) :
  run fetch env (communities_createCommunity communityData)
  = match fetchAPI fetch env "/api/communities"
            (with_json "POST" communityData) with
    | Return created => Return created
    | Throw _ =>
        Throw (new_Error "Community creation not available in development mode")
    end.
Proof.
  unfold communities_createCommunity.
  rewrite run_try_catch, run_await_fetchAPI.
  destruct (fetchAPI fetch env _ _); reflexivity.
Qed.

(** ** The session methods together *)

(** X8. [checkAuth] and [getSession] read the same request. [checkAuth]
    always answers, with [isAuthenticated] true or false. When it says true,
    [getSession] returns exactly the [user] it reports; when it says false,
    its [user] is [null] and [getSession] either returns [null] or fails. *)
Theorem checkAuth_agrees_with_getSession
    (fetch : string -> Init -> Settled) (env : option string) :
  exists r,
    run fetch env auth_checkAuth = Return r
    /\ (get r "isAuthenticated" = VBool true
        \/ get r "isAuthenticated" = VBool false)
    /\ (get r "isAuthenticated" = VBool true ->
        run fetch env auth_getSession = Return (get r "user"))
    /\ (get r "isAuthenticated" = VBool false ->
        get r "user" = VNull
        /\ (run fetch env auth_getSession = Return VNull
            \/ exists e, run fetch env auth_getSession = Throw e)).
Proof.
  unfold auth_checkAuth, auth_getSession.
  rewrite !run_try_catch, run_bind, run_await_fetchAPI.
  destruct (fetchAPI fetch env "/api/auth/session" no_options)
    as [session | error]; eexists; (split; [ reflexivity | ]).
  - split; [ left; reflexivity | ].
    split; [ reflexivity | discriminate ].
  - split; [ right; reflexivity | ].
    split; [ discriminate | ]. intros _. split; [ reflexivity | ].
    destruct (includes (message error) "No session token provided");
      [ left; reflexivity | right; eexists; reflexivity ].
Qed.

(** The failure that a refusal with a JSON object makes. *)
Lemma fetchAPI_refused_object
    (fetch : string -> Init -> Settled) (env : option string)
    (endpoint : string) (options : Init) (response : Response)
    (contentType : string) (fields : list (string * Value)) :
  fetch (API_URL env ++ endpoint) (fetchOptions options) = Fulfilled response ->
  ok response = false ->
  content_type response = Some contentType ->
  includes contentType "application/json" = true ->
  json response = Return (VObj fields) ->
  fetchAPI fetch env endpoint options
  = Throw (new_Error
             match assoc "error" fields with
             | Some reason =>
                 if truthy reason then toStr reason else "An error occurred"
             | None => "An error occurred"
             end).
Proof.
  intros Hfetch Hok Htype Hjson Hbody.
  unfold fetchAPI. rewrite Hfetch, Hok, Htype, Hjson, Hbody.
  destruct contentType; [ discriminate Hjson | ]. simpl.
  destruct (assoc "error" fields); reflexivity.
Qed.

(** X9. From the transport to the caller: when the backend refuses the
    session request with a JSON body whose [error] is a string that mentions
    ["No session token provided"], [getSession] returns [null] and
    [checkAuth] reports an unauthenticated user; neither fails. *)
Theorem missing_session_is_no_failure
    (fetch : string -> Init -> Settled) (env : option string)
    (response : Response) (contentType reason : string)
    (fields : list (string * Value)) :
  fetch (API_URL env ++ "/api/auth/session") (fetchOptions no_options)
  = Fulfilled response ->
  ok response = false ->
  content_type response = Some contentType ->
  includes contentType "application/json" = true ->
  json response = Return (VObj fields) ->
  assoc "error" fields = Some (VStr reason) ->
  includes reason "No session token provided" = true ->
  run fetch env auth_getSession = Return VNull
  /\ run fetch env auth_checkAuth
     = Return (VObj [("isAuthenticated", VBool false); ("user", VNull)]).
Proof.
  intros Hfetch Hok Htype Hjson Hbody Herror Hreason.
  pose proof (fetchAPI_refused_object fetch env _ _ _ _ _
                Hfetch Hok Htype Hjson Hbody) as Hthrow.
  rewrite Herror in Hthrow.
  assert (Hmessage : (if truthy (VStr reason) then toStr (VStr reason)
                      else "An error occurred") = reason).
  { destruct reason; [ discriminate Hreason | reflexivity ]. }
  rewrite Hmessage in Hthrow. unfold auth_getSession, auth_checkAuth.
  rewrite !run_try_catch, run_bind, run_await_fetchAPI, Hthrow.
  cbn [message new_Error run]. now rewrite Hreason.
Qed.

Lemma missing_session_is_no_failure_witness :
  run (json_refusal (VObj [("error", VStr "No session token provided")])) None
    auth_getSession = Return VNull
  /\ run (json_refusal (VObj [("error", VStr "No session token provided")])) None
       auth_checkAuth
     = Return (VObj [("isAuthenticated", VBool false); ("user", VNull)]).
Proof.
  apply (missing_session_is_no_failure
           (json_refusal (VObj [("error", VStr "No session token provided")]))
           None
           (mkResponse false (Some "application/json; charset=utf-8")
              (Return (VObj [("error", VStr "No session token provided")]))
              (API_URL None ++ "/api/auth/session"))
           "application/json; charset=utf-8" "No session token provided"
           [("error", VStr "No session token provided")]);
    reflexivity.
Defined.

(** ** The list methods, completely *)

(** X10. When the request of a list method succeeds with a bare array, the
    envelope is exactly this: the array under [posts] (under [comments] for
    [comments.getPostComments]), the requested page and limit, [total], and,
    for the four list methods of the posts API only, [hasMore]; nothing
    else. *)
Theorem list_envelope_is_exactly
    (fetch : string -> Init -> Settled) (env : option string)
    (enc : string -> string) (usp : list (string * string) -> string)
    (c : Call) (u : string) (o : Init) (items : list Value) :
  list_method c = true ->
  request_of (invoke enc usp c) = Some (u, o) ->
  fetchAPI fetch env u o = Return (VArr items) ->
  run fetch env (invoke enc usp c)
  = Return
      (VObj ([(envelope_key c, VArr items); ("page", requested_page c);
              ("limit", requested_limit c);
              ("total", VNum (Z.of_nat (List.length items)))]
             ++ if posts_list_method c
                then [("hasMore",
                       VBool (num_strict_eq (Z.of_nat (List.length items))
                                (requested_limit c)))]
                else [])%list).
Proof.
  intros Hlist Hreq Hfetch.
  destruct (run_request fetch env _ _ _ Hreq) as (k & Hk & Hrun).
  rewrite Hrun, Hfetch. clear Hrun Hfetch Hreq.
  destruct c; try discriminate Hlist; simpl in Hk; conversions_in Hk;
    try discriminate Hk; injection Hk as _ _ <-; reflexivity.
Qed.

Lemma list_envelope_is_exactly_witness :
  run (json_reply (VArr [VStr "c1"; VStr "c2"])) None
    (invoke no_encoding plain_query
       (CommentsGetPostComments (VNum 7) VUndefined VUndefined VUndefined))
  = Return (VObj [("comments", VArr [VStr "c1"; VStr "c2"]); ("page", VNum 1);
                  ("limit", VNum 20); ("total", VNum 2)]).
Proof.
  apply (list_envelope_is_exactly (json_reply (VArr [VStr "c1"; VStr "c2"]))
           None no_encoding plain_query
           (CommentsGetPostComments (VNum 7) VUndefined VUndefined VUndefined)
           "/api/posts/7/comments?page=1&limit=20" no_options);
    reflexivity.
Defined.

(** X11. A response that is not a bare array (an envelope the backend built
    itself, [null], a raw response) is handed on by the list methods
    untouched. *)
Theorem list_methods_keep_other_responses
    (fetch : string -> Init -> Settled) (env : option string)
    (enc : string -> string) (usp : list (string * string) -> string)
    (c : Call) (u : string) (o : Init) (data : Value) :
  list_method c = true ->
  request_of (invoke enc usp c) = Some (u, o) ->
  fetchAPI fetch env u o = Return data ->
  isArray data = false ->
  run fetch env (invoke enc usp c) = Return data.
Proof.
  intros Hlist Hreq Hfetch Hdata.
  destruct (run_request fetch env _ _ _ Hreq) as (k & Hk & Hrun).
  rewrite Hrun, Hfetch. clear Hrun Hfetch Hreq.
  destruct c; try discriminate Hlist; simpl in Hk; conversions_in Hk;
    try discriminate Hk; injection Hk as _ _ <-;
    destruct data; try discriminate Hdata; reflexivity.
Qed.

Lemma list_methods_keep_other_responses_witness :
  run (json_reply (VObj [("posts", VArr []); ("hasMore", VBool true)])) None
    (invoke no_encoding plain_query (PostsGetLikedPosts (VNum 2) (VNum 5)))
  = Return (VObj [("posts", VArr []); ("hasMore", VBool true)]).
Proof.
  apply (list_methods_keep_other_responses
           (json_reply (VObj [("posts", VArr []); ("hasMore", VBool true)]))
           None no_encoding plain_query (PostsGetLikedPosts (VNum 2) (VNum 5))
           "/api/posts/liked?page=2&limit=5" no_options);
    reflexivity.
Defined.

(** ** How arguments shape the request *)

(** X12. A user id that is falsy ([undefined], [null], [0], the empty
    string, [false]) addresses the current user: the profile, followers,
    following and counts methods of the users API and the two listing
    methods of the activity API then behave as when no id is given. *)
Theorem falsy_user_id_is_the_current_user
    (usp : list (string * string) -> string)
    (userID : Value) (params : ActivityParams) :
  truthy userID = false ->
  users_getProfile userID = users_getProfile VUndefined
  /\ users_getFollowers userID = users_getFollowers VUndefined
  /\ users_getFollowing userID = users_getFollowing VUndefined
  /\ users_getFollowCounts userID = users_getFollowCounts VUndefined
  /\ activity_getUserActivities usp userID params
     = activity_getUserActivities usp VUndefined params
  /\ activity_getUserPosts usp userID params
     = activity_getUserPosts usp VUndefined params.
Proof.
  intros Hfalsy.
  assert (H : truthy (default VNull userID) = false)
    by (destruct userID; (reflexivity || exact Hfalsy)).
  unfold users_getProfile, users_getFollowers, users_getFollowing,
    users_getFollowCounts, users_endpoint, activity_getUserActivities,
    activity_getUserPosts.
  rewrite H. repeat split; reflexivity.
Qed.

Lemma falsy_user_id_is_the_current_user_witness :
  request_of (users_getProfile (VNum 0))
  = Some ("/api/users/profile", no_options).
Proof.
  rewrite (proj1 (falsy_user_id_is_the_current_user plain_query (VNum 0)
                    (mkActivityParams VUndefined VUndefined None VUndefined)
                    eq_refl)).
  reflexivity.
Defined.





(** ** Upload, from the transport *)

(** X17. An upload that the backend answers with status ok but without JSON
    is not an invalid response for [uploadFile]: the raw response has a
    [url] of its own (the address it came from), so it is returned to the
    caller as the result of the upload. *)
Theorem uploadFile_accepts_a_raw_response
    (fetch : string -> Init -> Settled) (env : option string)
    (file : Value) (response : Response) :
  fetch (API_URL env ++ "/api/upload") (fetchOptions (form_data file))
  = Fulfilled response ->
  ok response = true ->
  (forall contentType,
     content_type response = Some contentType ->
     includes contentType "application/json" = false) ->
  response_url response <> "" ->
  run fetch env (upload_uploadFile file)
  = Return (VResponse (response_url response)).
Proof.
  intros Hfetch Hok Htype Hurl.
  assert (Hraw : fetchAPI fetch env "/api/upload" (form_data file)
                 = Return (VResponse (response_url response))).
  { unfold fetchAPI. rewrite Hfetch, Hok. simpl.
    destruct (content_type response) as [contentType |]; [ | reflexivity ].
    rewrite (Htype _ eq_refl). now rewrite andb_false_r. }
  unfold upload_uploadFile.
  rewrite run_try_catch, run_bind, run_await_fetchAPI, Hraw.
  cbn [truthy get member negb orb String.eqb Ascii.eqb Bool.eqb].
  destruct (String.eqb_spec (response_url response) "") as [Hempty | _];
    [ contradiction | reflexivity ].
Qed.

Lemma uploadFile_accepts_a_raw_response_witness :
  run text_reply None (upload_uploadFile (VFile "scan.png"))
  = Return (VResponse "http://localhost:8080/api/upload").
Proof.
  apply (uploadFile_accepts_a_raw_response text_reply None (VFile "scan.png")
           (mkResponse true (Some "text/plain")
              (Throw (mkError "SyntaxError" "Unexpected token O in JSON"))
              "http://localhost:8080/api/upload")).
  - reflexivity.
  - reflexivity.
  - intros contentType H. injection H as <-. reflexivity.
  - discriminate.
Defined.

(** ** The reconnecting WebSocket, over whole runs *)

Lemma substring_whole (s : string) :
  String.substring 0 (String.length s) s = s.
Proof. induction s as [| a s IH]; simpl; [ reflexivity | now rewrite IH ]. Qed.

(** X18. The socket is opened at the host of [API_URL], with the scheme
    taken off, under [/ws]; it is secure ([wss:]) exactly when the page
    itself was loaded over [https:], whatever the scheme of [API_URL]. The
    new socket is open, carries the given handler, and is added after the
    sockets that exist. *)
Theorem connectWebSocket_address
    (App : Type) (hostname page_protocol : string)
    (handler : Handler App) (w : World App) :
  let scheme :=
    if String.eqb page_protocol "https:" then "wss:" else "ws:" in
  connectWebSocket ("http://" ++ hostname) page_protocol handler w
  = (List.length (sockets w),
     mkWorld (app w)
       (sockets w ++ [mkWebSocket (scheme ++ "//" ++ hostname ++ "/ws")
                        OPEN handler])%list
       (timers w))
  /\ connectWebSocket ("https://" ++ hostname) page_protocol handler w
     = (List.length (sockets w),
        mkWorld (app w)
          (sockets w ++ [mkWebSocket (scheme ++ "//" ++ hostname ++ "/ws")
                           OPEN handler])%list
          (timers w)).
Proof.
  assert (Hempty : String.prefix "" hostname = true)
    by (destruct hostname; reflexivity).
  assert (Hhttp : host ("http://" ++ hostname) = hostname).
  { unfold host. cbv [String.append]. simpl.
    now rewrite Hempty, Nat.sub_0_r, substring_whole. }
  assert (Hhttps : host ("https://" ++ hostname) = hostname).
  { unfold host. cbv [String.append]. simpl.
    now rewrite Hempty, Nat.sub_0_r, substring_whole. }
  unfold connectWebSocket, protocol. rewrite Hhttp, Hhttps.
  split; reflexivity.
Qed.

Section RunProperties.

Variable App : Type.
Variable JSON_parse : string -> Outcome.
Variable API_URL : string.
Variable location_protocol : string.

(** All sockets and all pending reconnections of a world carry one
    handler. *)
Lemma one_handler_step
    (handler : Handler App) (w : World App) (ev : Event) :
  Forall (fun ws => onMessage ws = handler) (sockets w) ->
  Forall (fun t => reconnect_handler t = handler) (timers w) ->
  Forall (fun ws => onMessage ws = handler)
    (sockets (dispatch JSON_parse API_URL location_protocol w ev))
  /\ Forall (fun t => reconnect_handler t = handler)
       (timers (dispatch JSON_parse API_URL location_protocol w ev)).
Proof.
  intros Hsockets Htimers. destruct ev as [i data | i | i | j].
  - destruct (message_keeps_connections App JSON_parse API_URL
                location_protocol w i data) as [-> ->].
    now split.
  - simpl. destruct (sockets w !! i) as [ws |] eqn:Hws; [ | now split ].
    pose proof (Forall_lookup_1 _ _ _ _ Hsockets Hws) as Hhandler.
    simpl. split.
    + apply Forall_insert; [ exact Hsockets | exact Hhandler ].
    + apply Forall_app. split; [ exact Htimers | ].
      apply Forall_singleton. exact Hhandler.
  - simpl. destruct (sockets w !! i); now split.
  - simpl. destruct (timers w !! j) as [t |] eqn:Ht; [ | now split ].
    pose proof (Forall_lookup_1 _ _ _ _ Htimers Ht) as Hhandler.
    simpl. split.
    + apply Forall_app. split; [ exact Hsockets | ].
      apply Forall_singleton. exact Hhandler.
    + now apply Forall_delete.
Qed.

(** X19. Reconnection never changes the handler: after any sequence of
    events that follows [connectWebSocket(onMessage)], every socket the
    helper has created and every reconnection it has pending carries that
    same [onMessage]. *)
Theorem handler_survives_every_run
    (handler : Handler App) (start : App) (evs : list Event) :
  Forall (fun ws => onMessage ws = handler)
    (sockets (dispatch_all JSON_parse API_URL location_protocol
                (connected API_URL location_protocol handler start) evs))
  /\ Forall (fun t => reconnect_handler t = handler)
       (timers (dispatch_all JSON_parse API_URL location_protocol
                  (connected API_URL location_protocol handler start) evs)).
Proof.
  assert (Hstart : Forall (fun ws => onMessage ws = handler)
                     (sockets (connected API_URL location_protocol handler start))
                   /\ Forall (fun t => reconnect_handler t = handler)
                        (timers (connected API_URL location_protocol handler start))).
  { split; [ apply Forall_singleton; reflexivity | apply Forall_nil_2 ]. }
  revert Hstart.
  generalize (connected API_URL location_protocol handler start) as w.
  induction evs as [| ev evs IH]; intros w [Hsockets Htimers];
    [ now split | ].
  simpl. apply IH. now apply one_handler_step.
Qed.

Lemma open_sockets_after_close
    (l : list (WebSocket App)) (i : nat) (ws closed : WebSocket App) :
  l !! i = Some ws ->
  is_open ws = true ->
  is_open closed = false ->
  S (List.length (filter (fun s => is_open s = true) (<[i := closed]> l)))
  = List.length (filter (fun s => is_open s = true) l).
Proof.
  revert i. induction l as [| x l IH]; intros [| i] Hws Hopen Hclosed;
    simpl in Hws; try discriminate Hws.
  - injection Hws as ->. cbn [insert list_insert].
    rewrite filter_cons_False by congruence.
    now rewrite filter_cons_True by exact Hopen.
  - cbn [insert list_insert]. change (list_insert i closed l) with (<[i := closed]> l).
    rewrite !filter_cons. destruct (decide (is_open x = true)); simpl;
      now rewrite <- (IH i Hws Hopen Hclosed).
Qed.

(** An enabled event keeps the number of open sockets plus pending
    reconnections. *)
Lemma live_count_step (w : World App) (ev : Event) :
  enabled w ev = true ->
  (open_sockets (dispatch JSON_parse API_URL location_protocol w ev)
   + List.length (timers (dispatch JSON_parse API_URL location_protocol w ev))
   = open_sockets w + List.length (timers w))%nat.
Proof.
  intros Henabled. destruct ev as [i data | i | i | j]; unfold open_sockets.
  - destruct (message_keeps_connections App JSON_parse API_URL
                location_protocol w i data) as [-> ->].
    reflexivity.
  - simpl in Henabled |- *.
    destruct (sockets w !! i) as [ws |] eqn:Hws; [ | discriminate ].
    simpl. rewrite length_app. simpl.
    rewrite <- (open_sockets_after_close (sockets w) i ws
                  (mkWebSocket (ws_url ws) CLOSED (onMessage ws)) Hws Henabled
                  eq_refl).
    lia.
  - simpl. destruct (sockets w !! i); reflexivity.
  - simpl in Henabled |- *.
    destruct (timers w !! j) as [t |] eqn:Ht; [ | discriminate ].
    simpl. rewrite filter_app, length_app, length_delete by eauto.
    rewrite filter_cons_True by reflexivity. simpl.
    assert (j < List.length (timers w))%nat
      by (apply lookup_lt_is_Some; eauto).
    lia.
Qed.

(** X20. No reconnection storm and no silent death: along every run in which
    the platform delivers events only to open sockets and fires only pending
    timers, after [connectWebSocket] was called once there is at every
    moment exactly one open socket or exactly one pending reconnection,
    never both and never neither. *)
Theorem one_connection_or_one_reconnect
    (handler : Handler App) (start : App) (evs : list Event) :
  admissible JSON_parse API_URL location_protocol
    (connected API_URL location_protocol handler start) evs = true ->
  (open_sockets (dispatch_all JSON_parse API_URL location_protocol
                   (connected API_URL location_protocol handler start) evs)
   + List.length
       (timers (dispatch_all JSON_parse API_URL location_protocol
                  (connected API_URL location_protocol handler start) evs))
   = 1)%nat.
Proof.
  assert (Hstart : (open_sockets (connected API_URL location_protocol handler start)
                    + List.length
                        (timers (connected API_URL location_protocol handler start))
                    = 1)%nat) by reflexivity.
  revert Hstart.
  generalize (connected API_URL location_protocol handler start) as w.
  induction evs as [| ev evs IH]; intros w Hw Hrun; [ exact Hw | ].
  simpl in Hrun |- *. apply andb_true_iff in Hrun as [Henabled Hrest].
  apply IH; [ | exact Hrest ].
  now rewrite live_count_step.
Qed.

End RunProperties.

Lemma one_connection_or_one_reconnect_witness :
  (open_sockets (dispatch_all never_parses "http://localhost:8080" "http:"
                   (connected "http://localhost:8080" "http:" recorder [])
                   sample_run)
   + List.length
       (timers (dispatch_all never_parses "http://localhost:8080" "http:"
                  (connected "http://localhost:8080" "http:" recorder [])
                  sample_run))
   = 1)%nat.
Proof.
  apply (one_connection_or_one_reconnect (list Value) never_parses
           "http://localhost:8080" "http:" recorder [] sample_run).
  reflexivity.
Defined.

(** ** Mock data never shadows the backend *)

(** X21. When their request succeeds, [communities.getCommunity],
    [joinCommunity], [getEvents] and [createCommunity] return what the
    backend sent, whatever it is and whatever the id: the mock record of a
    seeded community, the fabricated join and the empty event list are used
    on failure only. *)
Theorem successful_community_requests_are_not_mocked
    (fetch : string -> Init -> Settled) (env : option string)
    (enc : string -> string) (usp : list (string * string) -> string)
    (c : Call) (u : string) (o : Init) (data : Value) :
  (exists communityId, c = CommunitiesGetCommunity communityId)
  \/ (exists communityId invitedBy,
        c = CommunitiesJoinCommunity communityId invitedBy)
  \/ (exists communityId, c = CommunitiesGetEvents communityId)
  \/ (exists communityData, c = CommunitiesCreateCommunity communityData) ->
  request_of (invoke enc usp c) = Some (u, o) ->
  fetchAPI fetch env u o = Return data ->
  run fetch env (invoke enc usp c) = Return data.
Proof.
  intros Hc Hreq Hfetch.
  destruct (run_request fetch env _ _ _ Hreq) as (k & Hk & Hrun).
  rewrite Hrun, Hfetch. clear Hrun Hfetch Hreq.
  destruct Hc as [[id ->] | [(id & inv & ->) | [[id ->] | [d ->]]]];
    simpl in Hk; conversions_in Hk; try discriminate Hk;
    injection Hk as _ _ <-; reflexivity.
Qed.

Lemma successful_community_requests_are_not_mocked_witness :
  run (json_reply (VObj [("id", VNum 1); ("title", VStr "Live")])) None
    (invoke no_encoding plain_query (CommunitiesGetCommunity (VNum 1)))
  = Return (VObj [("id", VNum 1); ("title", VStr "Live")]).
Proof.
  apply (successful_community_requests_are_not_mocked
           (json_reply (VObj [("id", VNum 1); ("title", VStr "Live")])) None
           no_encoding plain_query (CommunitiesGetCommunity (VNum 1))
           "/api/communities/1" no_options).
  - left. exists (VNum 1). reflexivity.
  - reflexivity.
  - reflexivity.
Defined.
